(** * pdf-processor scripts: extract_pages.py and get_metadata.py

    A shallow embedding of the two command-line scripts under
    [pdf-processor/scripts] and the properties their specification states
    about them.

    Python strings are sequences of Unicode code points, exceptions and
    [sys.exit] are outcomes of a small state-and-exception monad whose state
    is the trace of input/output events of the process, and the file system
    and the pdfplumber library are an environment the scripts query. *)

From Stdlib Require Import ZArith NArith List Bool Lia String Ascii.
From Stdlib Require Import DecimalString DecimalPos DecimalZ.
Import ListNotations.

Local Open Scope Z_scope.

(* ===================================================================== *)
(** ** Python strings *)
(* ===================================================================== *)

Module PyStr.

(** A [str] is a sequence of code points. *)
Definition codepoint := N.
Definition pystr := list codepoint.

(** String literals of the scripts, which are ASCII save for one dash. *)
Fixpoint lit (s : string) : pystr :=
  match s with
  | EmptyString => []
  | String a s' => N_of_ascii a :: lit s'
  end.

Definition em_dash : codepoint := 8212%N.
Definition comma : codepoint := 44%N.

(** [Py_UNICODE_ISSPACE]: the characters [str.strip()] removes. *)
Definition Py_UNICODE_ISSPACE (c : codepoint) : bool :=
  ((9 <=? c) && (c <=? 13) || (28 <=? c) && (c <=? 32)
   || (c =? 133) || (c =? 160) || (c =? 5760)
   || (8192 <=? c) && (c <=? 8202)
   || (c =? 8232) || (c =? 8233) || (c =? 8239) || (c =? 8287)
   || (c =? 12288))%N.

(** [Py_ISSPACE]: the ASCII white space of the C parser behind [int()]. *)
Definition Py_ISSPACE (c : codepoint) : bool :=
  ((9 <=? c) && (c <=? 13) || (c =? 32))%N.

Fixpoint lstrip (s : pystr) : pystr :=
  match s with
  | [] => []
  | c :: s' => if Py_UNICODE_ISSPACE c then lstrip s' else s
  end.

Definition rstrip (s : pystr) : pystr := rev (lstrip (rev s)).

(** [s.strip()] *)
Definition strip (s : pystr) : pystr := rstrip (lstrip s).

(** [s.split(sep)] for a one-character separator. *)
Fixpoint split (sep : codepoint) (s : pystr) : list pystr :=
  match s with
  | [] => [[]]
  | c :: s' =>
      if (c =? sep)%N then [] :: split sep s'
      else match split sep s' with
           | [] => [[c]]
           | piece :: pieces => (c :: piece) :: pieces
           end
  end.

(** [str(n)] for an [int]. *)
Definition str_of_int (n : Z) : pystr :=
  lit (NilZero.string_of_int (Z.to_int n)).

(** [sub in s] *)
Definition contains (sub s : pystr) : Prop :=
  exists before after, s = before ++ sub ++ after.

(** No white space at either end: what [strip] leaves. *)
Definition is_stripped (s : pystr) : bool :=
  match s with
  | [] => true
  | c :: _ =>
      negb (Py_UNICODE_ISSPACE c) && negb (Py_UNICODE_ISSPACE (last s c))
  end.

Definition stripped (s : pystr) : Prop := is_stripped s = true.

Definition ends_clean (s : pystr) : Prop :=
  (forall c s', s = c :: s' -> Py_UNICODE_ISSPACE c = false) /\
  (forall c s', s = s' ++ [c] -> Py_UNICODE_ISSPACE c = false).

Definition all_space (s : pystr) : Prop :=
  Forall (fun c => Py_UNICODE_ISSPACE c = true) s.

End PyStr.
Import PyStr.

(* ===================================================================== *)
(** ** The interpreter's [int(str)] *)
(* ===================================================================== *)

(** What [int()] takes from the interpreter it runs on: the decimal value
    of a non-ASCII digit, from the Unicode database the interpreter was
    built with, and the limit on the number of digits of a string converted
    to an integer ([0] when there is none). *)
Record Runtime := {
  Py_UNICODE_TODECIMAL : codepoint -> option N;
  int_max_str_digits : N
}.

Module PyInt.
Section WithRuntime.
Variable rt : Runtime.

(** [_PyUnicode_TransformDecimalAndSpaceToASCII]: the conversion stops at
    the first character that is neither ASCII, white space nor a digit. *)
Fixpoint transform_non_ascii (s : pystr) : pystr :=
  match s with
  | [] => []
  | ch :: rest =>
      if (ch <? 127)%N then ch :: transform_non_ascii rest
      else if Py_UNICODE_ISSPACE ch then 32%N :: transform_non_ascii rest
      else match Py_UNICODE_TODECIMAL rt ch with
           | Some d => (48 + d)%N :: transform_non_ascii rest
           | None => [63%N]
           end
  end.

Definition transform_decimal_and_space (s : pystr) : pystr :=
  if forallb (fun ch => (ch <? 128)%N) s then s else transform_non_ascii s.

Fixpoint skip_space (s : pystr) : pystr :=
  match s with
  | [] => []
  | c :: s' => if Py_ISSPACE c then skip_space s' else s
  end.

Definition is_digit (c : codepoint) : bool := ((48 <=? c) && (c <=? 57))%N.
Definition underscore : codepoint := 95%N.

(** The scan of the digits: single underscores between digits are skipped,
    a doubled or a trailing one is an error. *)
Fixpoint scan_digits (prev : codepoint) (digits : list N) (s : pystr)
  : option (list N * pystr) :=
  match s with
  | c :: rest =>
      if (c =? underscore)%N then
        if (prev =? underscore)%N then None else scan_digits c digits rest
      else if is_digit c then scan_digits c (digits ++ [(c - 48)%N]) rest
      else if (prev =? underscore)%N then None else Some (digits, s)
  | [] => if (prev =? underscore)%N then None else Some (digits, s)
  end.

Definition value_of_digits (digits : list N) : Z :=
  fold_left (fun v d => 10 * v + Z.of_N d) digits 0.

Definition over_digit_limit (digits : list N) : bool :=
  let n := N.of_nat (List.length digits) in
  ((640 <? n) && (0 <? int_max_str_digits rt) && (int_max_str_digits rt <? n))%N.

(** [PyLong_FromString] in base 10. *)
Definition long_from_string (buffer : pystr) : option Z :=
  let s := skip_space buffer in
  let '(sign, s) :=
    match s with
    | 43%N :: s' => (1, s')
    | 45%N :: s' => (-1, s')
    | _ => (1, s)
    end in
  match s with
  | 95%N :: _ => None
  | _ =>
      match scan_digits 0%N [] s with
      | None => None
      | Some ([], _) => None
      | Some (digits, rest) =>
          if over_digit_limit digits then None
          else match skip_space rest with
               | [] => Some (sign * value_of_digits digits)
               | _ :: _ => None
               end
      end
  end.

(** [int(s)]: [None] stands for the [ValueError] it raises. *)
Definition int (s : pystr) : option Z :=
  long_from_string (transform_decimal_and_space s).

End WithRuntime.
End PyInt.

(** An interpreter whose Unicode database has the ASCII and the
    Arabic-Indic digits, with the default limit of 4300 digits. *)
Definition sample_runtime : Runtime :=
  {| Py_UNICODE_TODECIMAL := fun c =>
       if ((48 <=? c) && (c <=? 57))%N then Some (c - 48)%N
       else if ((1632 <=? c) && (c <=? 1641))%N then Some (c - 1632)%N
       else None;
     int_max_str_digits := 4300 |}.

(* ===================================================================== *)
(** ** Exceptions, the event trace and the script monad *)
(* ===================================================================== *)

Inductive exn_class := ValueError | IndexError | OtherException.

(** An exception is an instance of [Exception]: its class and [str(e)]. *)
Record exn := { exn_cls : exn_class; exn_str : pystr }.

Definition is_ValueError (e : exn) : bool :=
  match exn_cls e with ValueError => true | _ => false end.
Definition is_Exception (e : exn) : bool := true.

(** Python values handed to [json.dumps]; a [dict] keeps insertion order. *)
#[warnings="-register-all"]
Inductive json :=
| JInt (n : Z)
| JStr (s : pystr)
| JList (items : list json)
| JDict (fields : list (pystr * json)).

Inductive stream := stdout | stderr.

(** One [print] call: the line it writes is [json.dumps(value)], with or
    without [ensure_ascii], or a formatted string; [Traceback] is what the
    interpreter itself prints for an exception nobody caught. *)
Inductive line :=
| Dumps (ensure_ascii : bool) (value : json)
| Text (s : pystr)
| Traceback (e : exn).

(** [json.dumps]: the text of a value, with the default separators. *)
Module Json.

Definition hex_digit (n : N) : codepoint :=
  (if n <? 10 then 48 + n else 87 + n)%N.

(** ['\\u{0:04x}'.format(n)] *)
Definition u_escape (n : N) : pystr :=
  [92; 117; hex_digit ((n / 4096) mod 16); hex_digit ((n / 256) mod 16);
   hex_digit ((n / 16) mod 16); hex_digit (n mod 16)]%N.

(** One character of a string: the quote, the backslash and the control
    characters are escaped; with [ensure_ascii] so is every character
    outside the printable ASCII range, beyond the basic plane as a
    surrogate pair. *)
Definition escape_char (ensure_ascii : bool) (c : codepoint) : pystr :=
  (if c =? 34 then [92; 34]
   else if c =? 92 then [92; 92]
   else if c =? 10 then [92; 110]
   else if c =? 13 then [92; 114]
   else if c =? 9 then [92; 116]
   else if c =? 8 then [92; 98]
   else if c =? 12 then [92; 102]
   else if c <? 32 then u_escape c
   else if negb ensure_ascii then [c]
   else if c <=? 126 then [c]
   else if c <? 65536 then u_escape c
   else let n := c - 65536 in
        u_escape (N.lor 55296 (N.land (N.shiftr n 10) 1023))
          ++ u_escape (N.lor 56320 (N.land n 1023)))%N.

Definition encode_basestring (ensure_ascii : bool) (s : pystr) : pystr :=
  [34%N] ++ flat_map (escape_char ensure_ascii) s ++ [34%N].

(** [sep.join(parts)] *)
Fixpoint join (sep : pystr) (parts : list pystr) : pystr :=
  match parts with
  | [] => []
  | [part] => part
  | part :: parts' => part ++ sep ++ join sep parts'
  end.

Fixpoint dumps (ensure_ascii : bool) (v : json) : pystr :=
  match v with
  | JInt n => str_of_int n
  | JStr s => encode_basestring ensure_ascii s
  | JList items =>
      lit "[" ++ join (lit ", ") (map (dumps ensure_ascii) items) ++ lit "]"
  | JDict fields =>
      lit "{"
        ++ join (lit ", ")
             (map (fun kv =>
                     match kv with
                     | (k, v') =>
                         encode_basestring ensure_ascii k ++ lit ": "
                           ++ dumps ensure_ascii v'
                     end)
                  fields)
        ++ lit "}"
  end.

End Json.

(** The text a [print] call hands to the stream, before the newline. *)
Definition render (l : line) : pystr :=
  match l with
  | Dumps ensure_ascii value => Json.dumps ensure_ascii value
  | Text s => s
  | Traceback e => exn_str e
  end.

Inductive event :=
| IsFile (path : pystr)
| GetSize (path : pystr)
| Open (path : pystr)
| Close (path : pystr)
| ReadPages (path : pystr)
| ExtractText (page_num : Z)
| ExtractTables (page_num : Z)
| Emit (f : stream) (l : line).

Definition trace := list event.

Inductive outcome (A : Type) :=
| Return (a : A)
| Raise (e : exn)
| SystemExit (code : Z).
Arguments Return {A} a.
Arguments Raise {A} e.
Arguments SystemExit {A} code.

(** A statement runs from a trace to an outcome and the extended trace. *)
Definition M (A : Type) := trace -> outcome A * trace.

Definition ret {A} (a : A) : M A := fun t => (Return a, t).

Definition bind {A B} (m : M A) (k : A -> M B) : M B :=
  fun t =>
    match m t with
    | (Return a, t') => k a t'
    | (Raise e, t') => (Raise e, t')
    | (SystemExit c, t') => (SystemExit c, t')
    end.

Declare Scope py_scope.
Delimit Scope py_scope with py.
Notation "x <- m ;; k" := (bind m (fun x => k))
  (at level 61, m at next level, right associativity) : py_scope.
Notation "m ;; k" := (bind m (fun _ => k))
  (at level 61, right associativity) : py_scope.
Local Open Scope py_scope.

Definition raise {A} (e : exn) : M A := fun t => (Raise e, t).
Definition sys_exit {A} (code : Z) : M A := fun t => (SystemExit code, t).
Definition log (ev : event) : M unit := fun t => (Return tt, t ++ [ev]).

(** A call into the environment: it is recorded, then returns or raises. *)
Definition call {A} (ev : event) (result : exn + A) : M A :=
  log ev ;;
  match result with
  | inl e => raise e
  | inr a => ret a
  end.

(** [try: body  except <class> as e: handler e]; [sys.exit] raises
    [SystemExit], which is no [Exception] and passes through. *)
Definition try_except {A} (body : M A) (catches : exn -> bool)
    (handler : exn -> M A) : M A :=
  fun t =>
    match body t with
    | (Raise e, t') => if catches e then handler e t' else (Raise e, t')
    | r => r
    end.

(** [if c: body] *)
Definition when (c : bool) (body : M unit) : M unit :=
  if c then body else ret tt.

Definition len {A} (l : list A) : Z := Z.of_nat (List.length l).

(** [l[i]], with Python's negative indices. *)
Definition getitem {A} (l : list A) (i : Z) : M A :=
  let j := if i <? 0 then i + len l else i in
  if (j <? 0) || (len l <=? j) then
    raise {| exn_cls := IndexError; exn_str := lit "list index out of range" |}
  else match nth_error l (Z.to_nat j) with
       | Some a => ret a
       | None =>
           raise {| exn_cls := IndexError;
                    exn_str := lit "list index out of range" |}
       end.

(** The process as the shell sees it. *)
Record process := { exit_code : Z; events : trace }.

(** [if __name__ == "__main__": main()] *)
Definition run_script (main : M unit) : process :=
  match main [] with
  | (Return _, t) => {| exit_code := 0; events := t |}
  | (SystemExit c, t) => {| exit_code := c; events := t |}
  | (Raise e, t) =>
      {| exit_code := 1; events := t ++ [Emit stderr (Traceback e)] |}
  end.

(** What was written to a stream, in order. *)
Fixpoint written (f : stream) (t : trace) : list line :=
  match t with
  | [] => []
  | Emit g l :: t' =>
      match f, g with
      | stdout, stdout | stderr, stderr => l :: written f t'
      | _, _ => written f t'
      end
  | _ :: t' => written f t'
  end.

(** The events that touch the file system or the document. *)
Definition is_io (ev : event) : bool :=
  match ev with
  | Emit _ _ => false
  | _ => true
  end.

Definition is_open (ev : event) : bool :=
  match ev with
  | Open _ => true
  | _ => false
  end.

(* ===================================================================== *)
(** ** The environment: file system and pdfplumber *)
(* ===================================================================== *)

(** A table cell as pdfplumber returns it: a string or [None]. *)
Definition cell := option pystr.
Definition raw_table := list (list cell).

Record Page := {
  extract_text : exn + option pystr;
  extract_tables : exn + option (list raw_table)
}.

Record PDF := {
  pages : exn + list Page;
  close : option exn
}.

(** Standard output is a text stream with a strict encoding:
    [stdout_encodes] tells the characters it can encode, and
    [stdout_encode_error] is the [UnicodeEncodeError] it raises for a text
    with a character it cannot. *)
Record Env := {
  runtime : Runtime;
  os_path_isfile : pystr -> bool;
  os_path_getsize : pystr -> exn + Z;
  pdfplumber_open : pystr -> exn + PDF;
  stdout_encodes : codepoint -> bool;
  stdout_encode_error : pystr -> exn
}.

(** Standard output takes the line: every character of its text can be
    encoded. *)
Definition stdout_accepts (env : Env) (l : line) : bool :=
  forallb (stdout_encodes env) (render l).

(** [print(l, file=f)].  Written to standard output, a line that cannot be
    encoded raises and nothing of it is written; the error stream replaces
    what it cannot encode by escapes and takes every line.  The newline
    that ends the line is taken to be encodable. *)
Definition print (env : Env) (f : stream) (l : line) : M unit :=
  match f with
  | stderr => log (Emit stderr l)
  | stdout =>
      if stdout_accepts env l then log (Emit stdout l)
      else raise (stdout_encode_error env (render l))
  end.

(** [with pdfplumber.open(path) as pdf: body]: the document is closed on
    every way out of the body, and an exception of [close] replaces the
    outcome of the body. *)
Definition with_open {A} (env : Env) (path : pystr) (body : PDF -> M A)
  : M A :=
  pdf <- call (Open path) (pdfplumber_open env path) ;;
  fun t =>
    let '(r, t') := body pdf t in
    match close pdf with
    | Some e => (Raise e, t' ++ [Close path])
    | None => (r, t' ++ [Close path])
    end.

(** [x or ""] and [x or []]: [None] and the empty value are both falsy. *)
Definition or_empty {A} (x : option (list A)) : list A :=
  match x with
  | Some (a :: l) => a :: l
  | _ => []
  end.

(* ===================================================================== *)
(** ** extract_pages.py *)
(* ===================================================================== *)

Module ExtractPages.

(** The dictionary built for one requested page. *)
Record PageResult := {
  pageNum : Z;
  text : pystr;
  tables : list (list (list pystr))
}.

(** [(cell or "").strip()] *)
Definition normalize_cell (c : cell) : pystr := strip (or_empty c).

(** The inner loop: [normalized.append([... for cell in row])]. *)
Fixpoint normalize_rows (table : raw_table) (normalized : list (list pystr))
  : list (list pystr) :=
  match table with
  | [] => normalized
  | row :: table' =>
      normalize_rows table' (normalized ++ [map normalize_cell row])
  end.

(** The outer loop: [tables.append(normalized)]. *)
Fixpoint normalize_tables (raw_tables : list raw_table)
    (tables : list (list (list pystr))) : list (list (list pystr)) :=
  match raw_tables with
  | [] => tables
  | table :: raw_tables' =>
      normalize_tables raw_tables' (tables ++ [normalize_rows table []])
  end.

Definition extract_page (page : Page) (page_num : Z) : M PageResult :=
  t <- call (ExtractText page_num) (extract_text page) ;;
  let text := or_empty t in
  r <- call (ExtractTables page_num) (extract_tables page) ;;
  let raw_tables := or_empty r in
  let tables := normalize_tables raw_tables [] in
  ret {| pageNum := page_num; text := text; tables := tables |}.

(** The f-string of the out-of-range notice. *)
Definition out_of_range_text (page_num total_pages : Z) : pystr :=
  lit "[Page " ++ str_of_int page_num ++ lit " out of range "
  ++ [em_dash] ++ lit " PDF has " ++ str_of_int total_pages ++ lit " pages]".

Definition placeholder (page_num total_pages : Z) : PageResult :=
  {| pageNum := page_num;
     text := out_of_range_text page_num total_pages;
     tables := [] |}.

(** [for page_num in requested_pages: ...], with [results] the list the
    loop appends to. *)
Fixpoint for_requested (pdf_pages : list Page) (total_pages : Z)
    (requested_pages : list Z) (results : list PageResult)
  : M (list PageResult) :=
  match requested_pages with
  | [] => ret results
  | page_num :: requested_pages' =>
      if (page_num <? 0) || (page_num >=? total_pages) then
        for_requested pdf_pages total_pages requested_pages'
          (results ++ [placeholder page_num total_pages])
      else
        page <- getitem pdf_pages page_num ;;
        r <- extract_page page page_num ;;
        for_requested pdf_pages total_pages requested_pages' (results ++ [r])
  end.

Definition json_of_str_list (l : list pystr) : json := JList (map JStr l).

Definition json_of_page_result (r : PageResult) : json :=
  JDict [(lit "pageNum", JInt (pageNum r));
         (lit "text", JStr (text r));
         (lit "tables",
          JList (map (fun table => JList (map json_of_str_list table))
                     (tables r)))].

Definition error_payload (msg : pystr) : line :=
  Dumps true (JDict [(lit "error", JStr msg)]).

Definition success_payload (results : list PageResult) : line :=
  Dumps false (JDict [(lit "pages", JList (map json_of_page_result results))]).

Definition usage : pystr :=
  lit "Usage: extract_pages.py <pdf_path> <page_numbers>".

Definition invalid_page_numbers (page_numbers_str : pystr) : pystr :=
  lit "Invalid page numbers: " ++ page_numbers_str.

Section WithEnv.
Variable env : Env.

(** [int(p.strip())] *)
Definition int_of_entry (p : pystr) : M Z :=
  match PyInt.int (runtime env) (strip p) with
  | Some n => ret n
  | None =>
      raise {| exn_cls := ValueError;
               exn_str := lit "invalid literal for int() with base 10" |}
  end.

(** [[int(p.strip()) for p in entries]] *)
Fixpoint int_of_entries (entries : list pystr) : M (list Z) :=
  match entries with
  | [] => ret []
  | p :: entries' =>
      n <- int_of_entry p ;;
      ns <- int_of_entries entries' ;;
      ret (n :: ns)
  end.

Definition main (sys_argv : list pystr) : M unit :=
  when (len sys_argv <? 3)
    (print env stderr (error_payload usage) ;; sys_exit 1) ;;
  pdf_path <- getitem sys_argv 1 ;;
  page_numbers_str <- getitem sys_argv 2 ;;
  requested_pages <-
    try_except (int_of_entries (split comma page_numbers_str))
      is_ValueError
      (fun _ =>
         print env stderr (error_payload (invalid_page_numbers page_numbers_str)) ;;
         sys_exit 1) ;;
  try_except
    (results <-
       with_open env pdf_path (fun pdf =>
         pdf_pages <- call (ReadPages pdf_path) (pages pdf) ;;
         let total_pages := len pdf_pages in
         for_requested pdf_pages total_pages requested_pages []) ;;
     print env stdout (success_payload results))
    is_Exception
    (fun e => print env stderr (error_payload (exn_str e)) ;; sys_exit 1).

(** The tool, started as [prog] with the given operands. *)
Definition run (prog : pystr) (operands : list pystr) : process :=
  run_script (main (prog :: operands)).

End WithEnv.
End ExtractPages.

(* ===================================================================== *)
(** ** get_metadata.py *)
(* ===================================================================== *)

Module GetMetadata.

Record MetadataResult := {
  pageCount : Z;
  fileSize : Z;
  firstPageText : pystr
}.

Definition json_of_metadata (m : MetadataResult) : json :=
  JDict [(lit "pageCount", JInt (pageCount m));
         (lit "fileSize", JInt (fileSize m));
         (lit "firstPageText", JStr (firstPageText m))].

Definition usage (prog : pystr) : pystr :=
  lit "Usage: " ++ prog ++ lit " <path_to_pdf>".

Definition file_not_found (pdf_path : pystr) : pystr :=
  lit "Error: file not found: " ++ pdf_path.

Definition error_extracting (e : exn) : pystr :=
  lit "Error extracting metadata: " ++ exn_str e.

Section WithEnv.
Variable env : Env.

Definition get_metadata (pdf_path : pystr) : M MetadataResult :=
  file_size <- call (GetSize pdf_path) (os_path_getsize env pdf_path) ;;
  r <- with_open env pdf_path (fun pdf =>
         pdf_pages <- call (ReadPages pdf_path) (pages pdf) ;;
         let page_count := len pdf_pages in
         first_page_text <-
           (if page_count >? 0 then
              page <- getitem pdf_pages 0 ;;
              t <- call (ExtractText 0) (extract_text page) ;;
              ret (or_empty t)
            else ret []) ;;
         ret (page_count, first_page_text)) ;;
  ret {| pageCount := fst r; fileSize := file_size;
         firstPageText := snd r |}.

Definition main (sys_argv : list pystr) : M unit :=
  when (negb (len sys_argv =? 2))
    (prog <- getitem sys_argv 0 ;;
     print env stderr (Text (usage prog)) ;;
     sys_exit 1) ;;
  pdf_path <- getitem sys_argv 1 ;;
  is_file <- call (IsFile pdf_path) (inr (os_path_isfile env pdf_path)) ;;
  when (negb is_file)
    (print env stderr (Text (file_not_found pdf_path)) ;; sys_exit 1) ;;
  try_except
    (metadata <- get_metadata pdf_path ;;
     print env stdout (Dumps false (json_of_metadata metadata)))
    is_Exception
    (fun e => print env stderr (Text (error_extracting e)) ;; sys_exit 1).

Definition run (prog : pystr) (operands : list pystr) : process :=
  run_script (main (prog :: operands)).

End WithEnv.
End GetMetadata.

(* ===================================================================== *)
(** ** A sample environment *)
(* ===================================================================== *)

Module Sample.

Definition corrupt : exn :=
  {| exn_cls := OtherException; exn_str := lit "No /Root object!" |}.

Definition page0 : Page :=
  {| extract_text := inr (Some (lit "Statement"));
     extract_tables :=
       inr (Some [[[Some (lit " Date "); None];
                   [Some (lit "01/02"); Some (lit "")]]]) |}.

Definition page1 : Page :=
  {| extract_text := inr None; extract_tables := inr None |}.

Definition page2 : Page :=
  {| extract_text := inl corrupt; extract_tables := inr (Some []) |}.

Definition statement : PDF :=
  {| pages := inr [page0; page1; page2]; close := None |}.

Definition blank : PDF := {| pages := inr []; close := None |}.

Definition eqb_str (a b : pystr) : bool :=
  if list_eq_dec N.eq_dec a b then true else false.

(** UTF-8 encodes every code point but the surrogates. *)
Definition utf8_encodes (c : codepoint) : bool :=
  ((c <? 55296) || (57343 <? c) && (c <=? 1114111))%N.

Definition cannot_encode (text : pystr) : exn :=
  {| exn_cls := ValueError;
     exn_str := lit "codec can't encode character" |}.

(** A directory with [statement.pdf] (three pages, the last one damaged),
    [blank.pdf] (no page) and [notes.txt] (not a PDF). *)
Definition env : Env :=
  {| runtime := sample_runtime;
     os_path_isfile := fun p =>
       eqb_str p (lit "statement.pdf") || eqb_str p (lit "blank.pdf")
       || eqb_str p (lit "notes.txt");
     os_path_getsize := fun p =>
       if eqb_str p (lit "statement.pdf") then inr 48213
       else if eqb_str p (lit "blank.pdf") then inr 312
       else if eqb_str p (lit "notes.txt") then inr 17
       else inl {| exn_cls := OtherException;
                   exn_str := lit "No such file or directory" |};
     pdfplumber_open := fun p =>
       if eqb_str p (lit "statement.pdf") then inr statement
       else if eqb_str p (lit "blank.pdf") then inr blank
       else if eqb_str p (lit "notes.txt") then inl corrupt
       else inl {| exn_cls := OtherException;
                   exn_str := lit "No such file or directory" |};
     stdout_encodes := utf8_encodes;
     stdout_encode_error := cannot_encode |}.

Definition prog : pystr := lit "extract_pages.py".

End Sample.

(* ===================================================================== *)
(** ** The vocabulary of the properties *)
(* ===================================================================== *)

Module Normalization.
Import ExtractPages.

(** What the specification asks of one cell: a missing cell becomes the
    empty string, a present one loses the white space around it. *)
Definition normalized_from (c : cell) (s : pystr) : Prop :=
  match c with
  | None => s = []
  | Some x =>
      exists l r, x = l ++ s ++ r /\ all_space l /\ all_space r /\ stripped s
  end.

(** Cells that are present, as a second extraction would return them. *)
Definition present (ts : list (list (list pystr))) : list raw_table :=
  map (map (map (@Some pystr))) ts.

Definition all_stripped (ts : list (list (list pystr))) : Prop :=
  forallb (forallb (forallb is_stripped)) ts = true.

End Normalization.

Module Loop.
Import ExtractPages.

(** The test of the loop: the index is negative or past the last page. *)
Definition out_of_range (page_num total_pages : Z) : bool :=
  (page_num <? 0) || (page_num >=? total_pages).

(** Both extractions of the page return. *)
Definition extracts (page : Page) : bool :=
  match extract_text page, extract_tables page with
  | inr _, inr _ => true
  | _, _ => false
  end.

Definition text_of (page : Page) : pystr :=
  match extract_text page with
  | inr t => or_empty t
  | inl _ => []
  end.

Definition tables_of (page : Page) : list (list (list pystr)) :=
  match extract_tables page with
  | inr r => map (map (map normalize_cell)) (or_empty r)
  | inl _ => []
  end.

(** The result for an index into the pages [ps]. *)
Definition result_of (ps : list Page) (page_num : Z) : PageResult :=
  if out_of_range page_num (len ps) then placeholder page_num (len ps)
  else match nth_error ps (Z.to_nat page_num) with
       | Some page =>
           {| pageNum := page_num; text := text_of page;
              tables := tables_of page |}
       | None => placeholder page_num (len ps)
       end.

(** The index is served without a fault. *)
Definition served (ps : list Page) (page_num : Z) : bool :=
  out_of_range page_num (len ps)
  || match nth_error ps (Z.to_nat page_num) with
     | Some page => extracts page
     | None => false
     end.

Definition extractions (ps : list Page) (page_num : Z) : trace :=
  if out_of_range page_num (len ps) then []
  else [ExtractText page_num; ExtractTables page_num].

End Loop.

Module ExtractPagesRuns.
Import ExtractPages Loop.

(** What a run of the page extraction tool leaves behind. *)
Definition pages_written (p : process) : Prop :=
  exit_code p = 0
  /\ (exists results,
        written stdout (events p)
        = [Dumps false
             (JDict
                [(lit "pages",
                  JList
                    (map (fun r =>
                            JDict
                              [(lit "pageNum", JInt (ExtractPages.pageNum r));
                               (lit "text", JStr (ExtractPages.text r));
                               (lit "tables",
                                JList
                                  (map (fun table =>
                                          JList
                                            (map (fun row => JList (map JStr row))
                                                 table))
                                       (ExtractPages.tables r)))])
                         results))])])
  /\ written stderr (events p) = [].

Definition pages_failed (p : process) : Prop :=
  exit_code p = 1
  /\ written stdout (events p) = []
  /\ exists msg,
       written stderr (events p)
       = [Dumps true (JDict [(lit "error", JStr msg)])].

Section WithEnv.
Variable env : Env.

(** [int(p.strip())] for the entry [p]. *)
Definition entry_value (p : pystr) : option Z :=
  PyInt.int (runtime env) (strip p).

(** The [with] block of [main]: the document is opened, the requested
    pages are served, the document is closed. *)
Definition session (pdf_path : pystr) (requested_pages : list Z)
  : M (list PageResult) :=
  with_open env pdf_path (fun pdf =>
    bind (call (ReadPages pdf_path) (pages pdf)) (fun pdf_pages =>
      for_requested pdf_pages (len pdf_pages) requested_pages [])).

Definition after_session (r : outcome (list PageResult) * trace) : process :=
  match r with
  | (Return results, t) =>
      if stdout_accepts env (success_payload results) then
        {| exit_code := 0;
           events := t ++ [Emit stdout (success_payload results)] |}
      else
        {| exit_code := 1;
           events :=
             t ++ [Emit stderr
                     (error_payload
                        (exn_str
                           (stdout_encode_error env
                              (render (success_payload results)))))] |}
  | (Raise e, t) =>
      {| exit_code := 1;
         events := t ++ [Emit stderr (error_payload (exn_str e))] |}
  | (SystemExit c, t) => {| exit_code := c; events := t |}
  end.

(** Every way a session can end. *)
Inductive session_end (pdf_path : pystr) (requested_pages : list Z)
  : outcome (list PageResult) -> trace -> Prop :=
| open_fault e :
    pdfplumber_open env pdf_path = inl e ->
    session_end pdf_path requested_pages (Raise e) [Open pdf_path]
| pages_fault pdf e :
    pdfplumber_open env pdf_path = inr pdf ->
    pages pdf = inl e ->
    session_end pdf_path requested_pages
      (Raise (match close pdf with Some e' => e' | None => e end))
      [Open pdf_path; ReadPages pdf_path; Close pdf_path]
| page_fault pdf ps e evs :
    pdfplumber_open env pdf_path = inr pdf ->
    pages pdf = inr ps ->
    forallb (served ps) requested_pages = false ->
    for_requested ps (len ps) requested_pages []
      [Open pdf_path; ReadPages pdf_path]
    = (Raise e, [Open pdf_path; ReadPages pdf_path] ++ evs) ->
    forallb is_io evs = true ->
    session_end pdf_path requested_pages
      (Raise (match close pdf with Some e' => e' | None => e end))
      ([Open pdf_path; ReadPages pdf_path] ++ evs ++ [Close pdf_path])
| close_fault pdf ps e :
    pdfplumber_open env pdf_path = inr pdf ->
    pages pdf = inr ps ->
    forallb (served ps) requested_pages = true ->
    close pdf = Some e ->
    session_end pdf_path requested_pages (Raise e)
      ([Open pdf_path; ReadPages pdf_path]
         ++ flat_map (extractions ps) requested_pages ++ [Close pdf_path])
| all_served pdf ps :
    pdfplumber_open env pdf_path = inr pdf ->
    pages pdf = inr ps ->
    forallb (served ps) requested_pages = true ->
    close pdf = None ->
    session_end pdf_path requested_pages
      (Return (map (result_of ps) requested_pages))
      ([Open pdf_path; ReadPages pdf_path]
         ++ flat_map (extractions ps) requested_pages ++ [Close pdf_path]).

End WithEnv.
End ExtractPagesRuns.

Module GetMetadataRuns.
Import GetMetadata.

(** What a run of the metadata tool leaves behind. *)
Definition metadata_written (p : process) : Prop :=
  exit_code p = 0
  /\ (exists m,
        written stdout (events p)
        = [Dumps false
             (JDict
                [(lit "pageCount", JInt (GetMetadata.pageCount m));
                 (lit "fileSize", JInt (GetMetadata.fileSize m));
                 (lit "firstPageText",
                  JStr (GetMetadata.firstPageText m))])])
  /\ written stderr (events p) = [].

Definition metadata_failed (p : process) : Prop :=
  exit_code p = 1
  /\ written stdout (events p) = []
  /\ exists msg, written stderr (events p) = [Text msg].

Section WithEnv.
Variable env : Env.

(** The first page's text as the result reports it. *)
Definition first_text (ps : list Page) (txt : pystr) : Prop :=
  match ps with
  | [] => txt = []
  | page :: _ => exists t, extract_text page = inr t /\ txt = or_empty t
  end.

(** A file whose size can be read and which opens, lists its pages, yields
    the text of its first page if it has one, and closes. *)
Definition readable (pdf_path : pystr) (size : Z) (ps : list Page)
    (txt : pystr) : Prop :=
  exists pdf,
    os_path_getsize env pdf_path = inr size
    /\ pdfplumber_open env pdf_path = inr pdf
    /\ pages pdf = inr ps
    /\ close pdf = None
    /\ first_text ps txt.

Definition reading (pdf_path : pystr) (ps : list Page) : trace :=
  [GetSize pdf_path; Open pdf_path; ReadPages pdf_path]
    ++ match ps with [] => [] | _ :: _ => [ExtractText 0] end
    ++ [Close pdf_path].

Definition after_metadata (r : outcome MetadataResult * trace) : process :=
  match r with
  | (Return metadata, t) =>
      if stdout_accepts env (Dumps false (json_of_metadata metadata)) then
        {| exit_code := 0;
           events :=
             t ++ [Emit stdout (Dumps false (json_of_metadata metadata))] |}
      else
        {| exit_code := 1;
           events :=
             t ++ [Emit stderr
                     (Text
                        (error_extracting
                           (stdout_encode_error env
                              (render
                                 (Dumps false
                                    (json_of_metadata metadata))))))] |}
  | (Raise e, t) =>
      {| exit_code := 1;
         events := t ++ [Emit stderr (Text (error_extracting e))] |}
  | (SystemExit c, t) => {| exit_code := c; events := t |}
  end.

End WithEnv.
End GetMetadataRuns.

(* ===================================================================== *)
(** ** Further vocabulary: padding, faults and the use of the document *)
(* ===================================================================== *)

Module Behaviour.
Import ExtractPages Loop.

(** The entry [p'] is the entry [p] with white space around it. *)
Definition padded (p p' : pystr) : Prop :=
  exists l r,
    forallb Py_UNICODE_ISSPACE l = true
    /\ forallb Py_UNICODE_ISSPACE r = true
    /\ p' = l ++ p ++ r.

(** The number of commas of a page-numbers argument. *)
Definition commas (s : pystr) : nat := count_occ N.eq_dec s comma.

(** The exception [extract_page] meets first on a page, if any. *)
Definition first_fault (page : Page) : option exn :=
  match extract_text page with
  | inl e => Some e
  | inr _ =>
      match extract_tables page with
      | inl e => Some e
      | inr _ => None
      end
  end.

(** The calls [extract_page] makes on a page: the tables are not asked for
    when the text already failed. *)
Definition page_calls (page : Page) (page_num : Z) : trace :=
  match extract_text page with
  | inl _ => [ExtractText page_num]
  | inr _ => [ExtractText page_num; ExtractTables page_num]
  end.

Definition is_extraction (ev : event) : bool :=
  match ev with
  | ExtractText _ | ExtractTables _ => true
  | _ => false
  end.

Definition space : codepoint := 32%N.

Definition eqb_path (p q : pystr) : bool :=
  if list_eq_dec N.eq_dec p q then true else false.

(** Where a run stands with its document. *)
Inductive doc_state :=
| Fresh
| Opened (p : pystr)
| Released
| Printed.

(** The discipline of a run towards its document.  A run starts [Fresh];
    it may test the path and read the size; it opens a document once, which
    leaves the document [Opened], or the run [Released] when the opening
    raised; pages are listed and extracted only from the open document,
    which is then closed; a line is printed only by a run that holds no
    open document, and nothing follows it.  [None] is a step outside the
    discipline. *)
Definition doc_step (env : Env) (st : doc_state) (ev : event)
  : option doc_state :=
  match st, ev with
  | Fresh, (IsFile _ | GetSize _) => Some Fresh
  | Fresh, Open p =>
      match pdfplumber_open env p with
      | inl _ => Some Released
      | inr _ => Some (Opened p)
      end
  | Opened q, ReadPages p => if eqb_path p q then Some (Opened q) else None
  | Opened q, (ExtractText _ | ExtractTables _) => Some (Opened q)
  | Opened q, Close p => if eqb_path p q then Some Released else None
  | (Fresh | Released), Emit _ _ => Some Printed
  | _, _ => None
  end.

Fixpoint doc_run (env : Env) (st : doc_state) (t : trace)
  : option doc_state :=
  match t with
  | [] => Some st
  | ev :: t' =>
      match doc_step env st ev with
      | Some st' => doc_run env st' t'
      | None => None
      end
  end.

(** The trace keeps the discipline and ends with the printed line. *)
Definition disciplined (env : Env) (t : trace) : Prop :=
  doc_run env Fresh t = Some Printed.

(** The accesses [get_metadata] can make to a file, from the first to the
    last. *)
Inductive metadata_access (env : Env) (pdf_path : pystr) : trace -> Prop :=
| size_only e :
    os_path_getsize env pdf_path = inl e ->
    metadata_access env pdf_path [GetSize pdf_path]
| not_opened e :
    pdfplumber_open env pdf_path = inl e ->
    metadata_access env pdf_path [GetSize pdf_path; Open pdf_path]
| no_page_read pdf :
    pdfplumber_open env pdf_path = inr pdf ->
    metadata_access env pdf_path
      [GetSize pdf_path; Open pdf_path; ReadPages pdf_path; Close pdf_path]
| first_page_read pdf :
    pdfplumber_open env pdf_path = inr pdf ->
    metadata_access env pdf_path
      [GetSize pdf_path; Open pdf_path; ReadPages pdf_path; ExtractText 0;
       Close pdf_path].

End Behaviour.

(** A second directory: [locked.pdf] has one page and opens, but closing
    it fails; the size of [gone.pdf] cannot be read. *)
Module Locked.

Definition busy : exn :=
  {| exn_cls := OtherException; exn_str := lit "Device or resource busy" |}.

Definition gone : exn :=
  {| exn_cls := OtherException; exn_str := lit "Stale file handle" |}.

Definition locked : PDF :=
  {| pages := inr [Sample.page0]; close := Some busy |}.

Definition env : Env :=
  {| runtime := sample_runtime;
     os_path_isfile := fun _ => true;
     os_path_getsize := fun p =>
       if Sample.eqb_str p (lit "locked.pdf") then inr 9000 else inl gone;
     pdfplumber_open := fun p =>
       if Sample.eqb_str p (lit "locked.pdf") then inr locked else inl gone;
     stdout_encodes := Sample.utf8_encodes;
     stdout_encode_error := Sample.cannot_encode |}.

End Locked.

(** The directory of [Sample], with a standard output that encodes ASCII
    only. *)
Module Narrow.

Definition ascii_encodes (c : codepoint) : bool := (c <? 128)%N.

Definition env : Env :=
  {| runtime := runtime Sample.env;
     os_path_isfile := os_path_isfile Sample.env;
     os_path_getsize := os_path_getsize Sample.env;
     pdfplumber_open := pdfplumber_open Sample.env;
     stdout_encodes := ascii_encodes;
     stdout_encode_error := Sample.cannot_encode |}.

End Narrow.

(* ===================================================================== *)
(** ** Strings: [strip], [split] and [int] *)
(* ===================================================================== *)

Section StripFacts.

Lemma stripped_ends_clean (s : pystr) : stripped s <-> ends_clean s.
Proof.
  unfold stripped, ends_clean. destruct s as [|c s]; simpl.
  - split; [intros _|reflexivity].
    split; intros c s' H; [discriminate | now destruct s'].
  - rewrite andb_true_iff, !negb_true_iff. split.
    + intros [Hhd Hlast]. split; intros c' s' Heq.
      * now inversion Heq; subst.
      * change (match s with [] => c | _ :: _ => last s c end)
          with (last (c :: s) c) in Hlast.
        rewrite Heq in Hlast. now rewrite last_last in Hlast.
    + intros [Hhd Hlast]. split; [now apply (Hhd c s)|].
      change (match s with [] => c | _ :: _ => last s c end)
        with (last (c :: s) c).
      destruct (exists_last (l := c :: s)) as (s' & c' & Heq);
        [discriminate|].
      rewrite Heq, last_last. now apply (Hlast c' s').
Qed.

Lemma lstrip_decompose (s : pystr) :
  exists l, s = l ++ lstrip s /\ all_space l /\
            (forall c s', lstrip s = c :: s' -> Py_UNICODE_ISSPACE c = false).
Proof.
  induction s as [|c s IH]; simpl.
  - exists []. repeat split; [constructor | discriminate].
  - destruct (Py_UNICODE_ISSPACE c) eqn:Hc.
    + destruct IH as (l & Hs & Hl & Hhd).
      exists (c :: l). repeat split.
      * simpl. now rewrite <- Hs.
      * now constructor.
      * exact Hhd.
    + exists []. repeat split; [constructor |].
      intros c' s' Heq. now inversion Heq; subst.
Qed.

Lemma all_space_rev (l : pystr) : all_space l -> all_space (rev l).
Proof. unfold all_space. apply Forall_rev. Qed.

Lemma rstrip_decompose (s : pystr) :
  exists r, s = rstrip s ++ r /\ all_space r /\
            (forall c s', rstrip s = s' ++ [c] -> Py_UNICODE_ISSPACE c = false).
Proof.
  unfold rstrip.
  destruct (lstrip_decompose (rev s)) as (l & Hs & Hl & Hhd).
  exists (rev l). repeat split.
  - rewrite <- rev_app_distr, <- Hs. now rewrite rev_involutive.
  - now apply all_space_rev.
  - intros c s' Heq. apply (Hhd c (rev s')).
    apply (f_equal (@rev N)) in Heq.
    rewrite rev_involutive in Heq. rewrite Heq.
    now rewrite rev_app_distr.
Qed.

(** [strip] removes a run of white space at each end and nothing else. *)
Lemma strip_decompose (s : pystr) :
  exists l r, s = l ++ strip s ++ r /\ all_space l /\ all_space r /\
              stripped (strip s).
Proof.
  unfold strip.
  destruct (lstrip_decompose s) as (l & Hs & Hl & Hhd).
  destruct (rstrip_decompose (lstrip s)) as (r & Hu & Hr & Hlast).
  exists l, r. repeat split; auto.
  - now rewrite <- Hu.
  - apply stripped_ends_clean. split; [|exact Hlast].
    intros c s' Heq. apply (Hhd c (s' ++ r)).
    rewrite Hu at 1. now rewrite Heq.
Qed.

Lemma lstrip_fixed (s : pystr) :
  (forall c s', s = c :: s' -> Py_UNICODE_ISSPACE c = false) -> lstrip s = s.
Proof.
  destruct s as [|c s]; [reflexivity|].
  intros H. simpl. now rewrite (H c s eq_refl).
Qed.

Lemma strip_fixed (s : pystr) : stripped s -> strip s = s.
Proof.
  intros H. apply stripped_ends_clean in H. destruct H as [Hhd Hlast].
  unfold strip, rstrip.
  rewrite (lstrip_fixed s Hhd).
  rewrite lstrip_fixed; [apply rev_involutive|].
  intros c s' Heq. apply (Hlast c (rev s')).
  apply (f_equal (@rev N)) in Heq.
  rewrite rev_involutive in Heq. now rewrite Heq.
Qed.

Lemma strip_strip (s : pystr) : strip (strip s) = strip s.
Proof.
  apply strip_fixed.
  now destruct (strip_decompose s) as (_ & _ & _ & _ & _ & H).
Qed.

Lemma lstrip_all_space (s : pystr) : all_space s -> lstrip s = [].
Proof.
  induction 1 as [|c s Hc _ IH]; simpl; [reflexivity|].
  now rewrite Hc.
Qed.

Lemma strip_all_space (s : pystr) : all_space s -> strip s = [].
Proof.
  intros H. unfold strip. now rewrite (lstrip_all_space s H).
Qed.

End StripFacts.

Lemma split_nonempty (sep : codepoint) (s : pystr) : split sep s <> [].
Proof.
  destruct s as [|c s]; simpl; [discriminate|].
  destruct (c =? sep)%N; [discriminate|].
  destruct (split sep s); discriminate.
Qed.

Lemma or_empty_Some_str (s : pystr) : or_empty (Some s) = s.
Proof. now destruct s. Qed.

(* ===================================================================== *)
(** ** The interpreter's functions on examples *)
(* ===================================================================== *)

Example int_12 : PyInt.int sample_runtime (lit "12") = Some 12.
Proof. reflexivity. Qed.
Example int_neg : PyInt.int sample_runtime (lit "-007") = Some (-7).
Proof. reflexivity. Qed.
Example int_underscore : PyInt.int sample_runtime (lit "1_000") = Some 1000.
Proof. reflexivity. Qed.
Example int_bad_underscore : PyInt.int sample_runtime (lit "1__0") = None.
Proof. reflexivity. Qed.
Example int_trailing_underscore : PyInt.int sample_runtime (lit "1_") = None.
Proof. reflexivity. Qed.
Example int_empty : PyInt.int sample_runtime [] = None.
Proof. reflexivity. Qed.
Example int_letter : PyInt.int sample_runtime (lit "a") = None.
Proof. reflexivity. Qed.
Example int_arabic : PyInt.int sample_runtime [1633%N; 1634%N] = Some 12.
Proof. reflexivity. Qed.
Example split_example :
  split comma (lit "0, 1,,") = [lit "0"; lit " 1"; []; []].
Proof. reflexivity. Qed.
Example strip_example : strip (lit "  a b ") = lit "a b".
Proof. reflexivity. Qed.
Example str_of_int_example :
  str_of_int (-40) = lit "-40" /\ str_of_int 0 = lit "0".
Proof. split; reflexivity. Qed.

(** [json.dumps] on examples; [34] is the double quote. *)
Example dumps_nested :
  Json.dumps false
    (JDict [(lit "pages", JList [JInt (-1); JStr (lit "a b"); JList []]);
            (lit "k", JDict [])])
  = lit "{" ++ [34%N] ++ lit "pages" ++ [34%N] ++ lit ": [-1, " ++ [34%N]
      ++ lit "a b" ++ [34%N] ++ lit ", []], " ++ [34%N] ++ lit "k" ++ [34%N]
      ++ lit ": {}}".
Proof. reflexivity. Qed.

Example dumps_keeps_unicode :
  Json.dumps false (JStr [8212%N; 9%N; 1%N; 34%N; 92%N; 127%N])
  = [34%N; 8212%N] ++ lit "\t\u0001\" ++ [34%N] ++ lit "\\" ++ [127%N; 34%N].
Proof. reflexivity. Qed.

Example dumps_ensure_ascii :
  Json.dumps true (JStr [233%N; 10%N; 128512%N; 127%N; 126%N])
  = [34%N] ++ lit "\u00e9\n\ud83d\ude00\u007f~" ++ [34%N].
Proof. reflexivity. Qed.

Example ascii_stdout_refuses_the_notice :
  stdout_accepts Narrow.env
    (Dumps false (JStr (ExtractPages.out_of_range_text 4 3))) = false
  /\ stdout_accepts Sample.env
       (Dumps false (JStr (ExtractPages.out_of_range_text 4 3))) = true
  /\ stdout_accepts Sample.env (Dumps false (JStr [55357%N])) = false.
Proof. repeat split. Qed.

(* ===================================================================== *)
(** ** Traces and indexing *)
(* ===================================================================== *)

Lemma written_app (f : stream) (t u : trace) :
  written f (t ++ u) = written f t ++ written f u.
Proof.
  induction t as [|ev t IH]; simpl; [reflexivity|].
  destruct ev; auto. destruct f, f0; simpl; now rewrite ?IH.
Qed.

Lemma written_io (f : stream) (t : trace) :
  forallb is_io t = true -> written f t = [].
Proof.
  induction t as [|ev t IH]; simpl; [reflexivity|].
  destruct ev; simpl; auto; discriminate.
Qed.

Lemma len_nonneg {A} (l : list A) : 0 <= len l.
Proof. unfold len. lia. Qed.

Lemma len_cons {A} (a : A) (l : list A) : len (a :: l) = len l + 1.
Proof. unfold len. change (List.length (a :: l)) with (S (List.length l)). lia. Qed.

Lemma getitem_in_range {A} (l : list A) (i : Z) :
  0 <= i < len l ->
  exists a, nth_error l (Z.to_nat i) = Some a /\ getitem l i = ret a.
Proof.
  intros [Hlo Hhi]. unfold getitem.
  destruct (Z.ltb_spec i 0) as [?|_]; [lia|]. cbv zeta.
  destruct (Z.ltb_spec i 0) as [?|_]; [lia|].
  destruct (Z.leb_spec (len l) i) as [?|_]; [lia|]. simpl.
  destruct (nth_error l (Z.to_nat i)) as [a|] eqn:Hnth.
  - now exists a.
  - apply nth_error_None in Hnth. unfold len in Hhi. lia.
Qed.

Lemma getitem_head {A} (a : A) (l : list A) : getitem (a :: l) 0 = ret a.
Proof.
  destruct (getitem_in_range (a :: l) 0) as (x & Hnth & Hget).
  - rewrite len_cons. pose proof (len_nonneg l). lia.
  - simpl in Hnth. now inversion Hnth; subst.
Qed.

Lemma getitem_second {A} (a b : A) (l : list A) :
  getitem (a :: b :: l) 1 = ret b.
Proof.
  destruct (getitem_in_range (a :: b :: l) 1) as (x & Hnth & Hget).
  - rewrite !len_cons. pose proof (len_nonneg l). lia.
  - simpl in Hnth. now inversion Hnth; subst.
Qed.

Lemma getitem_third {A} (a b c : A) (l : list A) :
  getitem (a :: b :: c :: l) 2 = ret c.
Proof.
  destruct (getitem_in_range (a :: b :: c :: l) 2) as (x & Hnth & Hget).
  - rewrite !len_cons. pose proof (len_nonneg l). lia.
  - simpl in Hnth. now inversion Hnth; subst.
Qed.

(* ===================================================================== *)
(** ** Table-cell normalization *)
(* ===================================================================== *)

Module NormalizationFacts.
Import ExtractPages Normalization.

Lemma all_stripped_Forall (ts : list (list (list pystr))) :
  all_stripped ts <-> Forall (Forall (Forall stripped)) ts.
Proof.
  unfold all_stripped. rewrite forallb_forall, Forall_forall.
  split; intros H t Ht; specialize (H t Ht).
  - rewrite forallb_forall in H. apply Forall_forall. intros row Hrow.
    specialize (H row Hrow). rewrite forallb_forall in H.
    apply Forall_forall. exact H.
  - rewrite Forall_forall in H. apply forallb_forall. intros row Hrow.
    specialize (H row Hrow). rewrite Forall_forall in H.
    apply forallb_forall. exact H.
Qed.

Lemma normalize_rows_map (table : raw_table) (acc : list (list pystr)) :
  normalize_rows table acc = acc ++ map (map normalize_cell) table.
Proof.
  revert acc. induction table as [|row table IH]; intros acc; simpl.
  - now rewrite app_nil_r.
  - rewrite IH, <- app_assoc. reflexivity.
Qed.

Lemma normalize_tables_map (raw_tables : list raw_table)
    (acc : list (list (list pystr))) :
  normalize_tables raw_tables acc
  = acc ++ map (map (map normalize_cell)) raw_tables.
Proof.
  revert acc. induction raw_tables as [|t ts IH]; intros acc; simpl.
  - now rewrite app_nil_r.
  - rewrite IH, <- app_assoc, normalize_rows_map. reflexivity.
Qed.

Lemma normalize_cell_spec (c : cell) : normalized_from c (normalize_cell c).
Proof.
  destruct c as [x|]; unfold normalize_cell.
  - rewrite or_empty_Some_str. apply strip_decompose.
  - reflexivity.
Qed.

Lemma Forall2_map_spec {A B} (R : A -> B -> Prop) (f : A -> B) (l : list A) :
  (forall a, R a (f a)) -> Forall2 R l (map f l).
Proof. intros H. induction l; simpl; constructor; auto. Qed.

Lemma normalize_tables_spec (raw_tables : list raw_table) :
  Forall2 (Forall2 (Forall2 normalized_from)) raw_tables
          (normalize_tables raw_tables []).
Proof.
  rewrite normalize_tables_map. simpl.
  apply Forall2_map_spec. intros t.
  apply Forall2_map_spec. intros row.
  apply Forall2_map_spec. apply normalize_cell_spec.
Qed.

Lemma map_fixed {A} (f : A -> A) (P : A -> Prop) (l : list A) :
  (forall a, P a -> f a = a) -> Forall P l -> map f l = l.
Proof.
  intros Hf. induction 1 as [|a l Ha _ IH]; simpl; [reflexivity|].
  now rewrite (Hf a Ha), IH.
Qed.

Lemma normalize_present_fixed (ts : list (list (list pystr))) :
  all_stripped ts -> normalize_tables (present ts) [] = ts.
Proof.
  intros H. apply all_stripped_Forall in H.
  rewrite normalize_tables_map. simpl. unfold present.
  rewrite map_map.
  apply (map_fixed _ (Forall (Forall stripped))); [|exact H].
  intros t Ht. rewrite map_map.
  apply (map_fixed _ (Forall stripped)); [|exact Ht].
  intros row Hrow. rewrite map_map.
  apply (map_fixed _ stripped); [|exact Hrow].
  intros s Hs. unfold normalize_cell. rewrite or_empty_Some_str.
  now apply strip_fixed.
Qed.

Lemma normalize_tables_all_stripped (raw_tables : list raw_table) :
  all_stripped (normalize_tables raw_tables []).
Proof.
  apply all_stripped_Forall. rewrite normalize_tables_map. simpl.
  apply Forall_map, Forall_forall. intros t _.
  apply Forall_map, Forall_forall. intros row _.
  apply Forall_map, Forall_forall. intros c _.
  unfold normalize_cell.
  now destruct (strip_decompose (or_empty c)) as (_ & _ & _ & _ & _ & H).
Qed.

(** C4. For a page whose text and table extraction return, [extract_page]
    returns the page's result after one text and one table extraction; its
    tables are the extracted ones, table by table, row by row and cell by
    cell in the same number and order, each missing cell replaced by the
    empty string and each present cell rid of the white space around it. *)
Theorem extract_page_normalizes (page : Page) (page_num : Z)
    (t : option pystr) (r : option (list raw_table)) (tr : trace) :
  extract_text page = inr t ->
  extract_tables page = inr r ->
  exists res,
    extract_page page page_num tr
    = (Return res, tr ++ [ExtractText page_num; ExtractTables page_num])
    /\ pageNum res = page_num
    /\ text res = or_empty t
    /\ Forall2 (Forall2 (Forall2 normalized_from)) (or_empty r) (tables res)
    /\ tables res = map (map (map normalize_cell)) (or_empty r).
Proof.
  intros Ht Hr.
  exists {| pageNum := page_num; text := or_empty t;
            tables := normalize_tables (or_empty r) [] |}.
  repeat split.
  - unfold extract_page, bind, call, log, ret. rewrite Ht, Hr. simpl.
    now rewrite <- app_assoc.
  - simpl. apply normalize_tables_spec.
  - simpl. now rewrite normalize_tables_map.
Qed.

Lemma extract_page_normalizes_witness :
  exists res,
    extract_page Sample.page0 0 []
    = (Return res, [ExtractText 0; ExtractTables 0])
    /\ tables res = [[[lit "Date"; []]; [lit "01/02"; []]]].
Proof.
  destruct (extract_page_normalizes Sample.page0 0 _ _ [] eq_refl eq_refl)
    as (res & Hrun & _ & _ & _ & Htables).
  exists res. split; [exact Hrun | exact Htables].
Defined.

(** C5. Normalizing tables whose cells are present and carry no white
    space at either end returns them unchanged, and so normalizing the
    outcome of a normalization changes nothing. *)
Theorem normalization_idempotent (ts : list (list (list pystr)))
    (raw_tables : list raw_table) :
  all_stripped ts ->
  normalize_tables (present ts) [] = ts
  /\ normalize_tables (present (normalize_tables raw_tables [])) []
     = normalize_tables raw_tables [].
Proof.
  intros H. split.
  - now apply normalize_present_fixed.
  - apply normalize_present_fixed, normalize_tables_all_stripped.
Qed.

Lemma normalization_idempotent_witness :
  normalize_tables (present [[[lit "a b"; []]]]) [] = [[[lit "a b"; []]]]
  /\ normalize_tables
       (present (normalize_tables [[[Some (lit " Date "); None]]] [])) []
     = normalize_tables [[[Some (lit " Date "); None]]] [].
Proof.
  apply (normalization_idempotent [[[lit "a b"; []]]]
           [[[Some (lit " Date "); None]]]).
  reflexivity.
Defined.

End NormalizationFacts.

(* ===================================================================== *)
(** ** The request loop of extract_pages.py *)
(* ===================================================================== *)

Module LoopFacts.
Import ExtractPages Loop.

Lemma in_range_spec (page_num total : Z) :
  out_of_range page_num total = false <-> 0 <= page_num < total.
Proof.
  unfold out_of_range. rewrite orb_false_iff, Z.ltb_ge, Z.geb_leb, Z.leb_gt.
  lia.
Qed.

Lemma extract_page_extracts (page : Page) (n : Z) (t : trace) :
  extracts page = true ->
  extract_page page n t
  = (Return {| pageNum := n; text := text_of page; tables := tables_of page |},
     t ++ [ExtractText n; ExtractTables n]).
Proof.
  unfold extracts, text_of, tables_of, extract_page, bind, call, log, ret.
  destruct (extract_text page) as [e|tx]; [discriminate|].
  destruct (extract_tables page) as [e|r]; [discriminate|].
  intros _. simpl.
  now rewrite <- app_assoc, NormalizationFacts.normalize_tables_map.
Qed.

Lemma extract_page_fault (page : Page) (n : Z) (t : trace) :
  extracts page = false ->
  exists e evs, extract_page page n t = (Raise e, t ++ evs)
                /\ forallb is_io evs = true.
Proof.
  unfold extracts, extract_page, bind, call, log, ret, raise.
  destruct (extract_text page) as [e|tx]; simpl.
  - intros _. now exists e, [ExtractText n].
  - destruct (extract_tables page) as [e|r]; [|discriminate].
    intros _. simpl. exists e, [ExtractText n; ExtractTables n].
    now rewrite <- app_assoc.
Qed.

(** A request whose indices are all served returns one result per index,
    in the order of the request. *)
Lemma for_requested_served (ps : list Page) (req : list Z)
    (acc : list PageResult) (t : trace) :
  forallb (served ps) req = true ->
  for_requested ps (len ps) req acc t
  = (Return (acc ++ map (result_of ps) req),
     t ++ flat_map (extractions ps) req).
Proof.
  revert acc t. induction req as [|n req IH]; intros acc t H; simpl.
  - now rewrite !app_nil_r.
  - simpl in H. apply andb_true_iff in H. destruct H as [Hn Hreq].
    unfold served in Hn. unfold result_of at 1. unfold extractions at 1.
    fold (out_of_range n (len ps)).
    destruct (out_of_range n (len ps)) eqn:Hrange.
    + rewrite (IH _ _ Hreq), <- app_assoc. reflexivity.
    + simpl in Hn. apply in_range_spec in Hrange.
      destruct (getitem_in_range ps n Hrange) as (page & Hnth & Hget).
      rewrite Hnth in Hn |- *. unfold bind at 1. rewrite Hget.
      unfold ret at 1. unfold bind at 1.
      rewrite (extract_page_extracts page n t Hn).
      rewrite (IH _ _ Hreq), <- !app_assoc. reflexivity.
Qed.

(** A request with an index that is not served raises, and nothing was
    written meanwhile. *)
Lemma for_requested_fault (ps : list Page) (req : list Z)
    (acc : list PageResult) (t : trace) :
  forallb (served ps) req = false ->
  exists e evs, for_requested ps (len ps) req acc t = (Raise e, t ++ evs)
                /\ forallb is_io evs = true.
Proof.
  revert acc t. induction req as [|n req IH]; intros acc t H; simpl.
  - discriminate.
  - simpl in H. unfold served in H at 1.
    fold (out_of_range n (len ps)).
    destruct (out_of_range n (len ps)) eqn:Hrange.
    + simpl in H. apply IH, H.
    + simpl in H. apply in_range_spec in Hrange.
      destruct (getitem_in_range ps n Hrange) as (page & Hnth & Hget).
      rewrite Hnth in H. unfold bind at 1. rewrite Hget.
      unfold ret at 1. unfold bind at 1.
      destruct (extracts page) eqn:Hpage.
      * rewrite (extract_page_extracts page n t Hpage).
        simpl in H.
        destruct (IH (acc ++ [{| pageNum := n; text := text_of page;
                                 tables := tables_of page |}])
                    (t ++ [ExtractText n; ExtractTables n]) H)
          as (e & evs & Hrun & Hio).
        exists e, ([ExtractText n; ExtractTables n] ++ evs).
        rewrite Hrun, app_assoc. split; [reflexivity|].
        simpl. exact Hio.
      * destruct (extract_page_fault page n t Hpage) as (e & evs & Hrun & Hio).
        rewrite Hrun. now exists e, evs.
Qed.

Lemma extractions_io (ps : list Page) (req : list Z) :
  forallb is_io (flat_map (extractions ps) req) = true.
Proof.
  induction req as [|n req IH]; simpl; [reflexivity|].
  rewrite forallb_app, IH, andb_true_r.
  unfold extractions. now destruct (out_of_range n (len ps)).
Qed.

Lemma pageNum_result_of (ps : list Page) (req : list Z) :
  map pageNum (map (result_of ps) req) = req.
Proof.
  rewrite map_map. rewrite <- (map_id req) at 2.
  apply map_ext. intros n. unfold result_of.
  destruct (out_of_range n (len ps)); [reflexivity|].
  now destruct (nth_error ps (Z.to_nat n)).
Qed.

End LoopFacts.

(* ===================================================================== *)
(** ** Runs of extract_pages.py *)
(* ===================================================================== *)

Module ExtractPagesFacts.
Import ExtractPages Loop LoopFacts ExtractPagesRuns.

Section WithEnv.
Variable env : Env.

Lemma int_of_entries_parsed (entries : list pystr) (ns : list Z) (t : trace) :
  map (entry_value env) entries = map Some ns ->
  int_of_entries env entries t = (Return ns, t).
Proof.
  revert ns. induction entries as [|p entries IH]; intros [|n ns] H;
    try discriminate; simpl in *.
  - reflexivity.
  - inversion H as [[Hp Hrest]].
    unfold bind, int_of_entry. fold (entry_value env p). rewrite Hp.
    unfold ret at 1. now rewrite (IH ns Hrest).
Qed.

Lemma int_of_entries_invalid (entries : list pystr) (t : trace) :
  Exists (fun p => entry_value env p = None) entries ->
  exists e, int_of_entries env entries t = (Raise e, t)
            /\ is_ValueError e = true.
Proof.
  induction entries as [|p entries IH]; intros H; [inversion H|].
  simpl. unfold bind, int_of_entry. fold (entry_value env p).
  destruct (entry_value env p) as [n|] eqn:Hp.
  - unfold ret at 1.
    destruct IH as (e & Hrun & He).
    + inversion H as [? ? Hhd|]; subst; [congruence | assumption].
    + exists e. now rewrite Hrun.
  - eexists. split; reflexivity.
Qed.

Lemma entries_cases (entries : list pystr) :
  (exists ns, map (entry_value env) entries = map Some ns)
  \/ Exists (fun p => entry_value env p = None) entries.
Proof.
  induction entries as [|p entries [(ns & IH)|IH]].
  - left. now exists [].
  - destruct (entry_value env p) as [n|] eqn:Hp.
    + left. exists (n :: ns). simpl. now rewrite Hp, IH.
    + right. now constructor.
  - right. now constructor.
Qed.

Lemma run_too_few (prog : pystr) (operands : list pystr) :
  (List.length operands < 2)%nat ->
  run env prog operands
  = {| exit_code := 1; events := [Emit stderr (error_payload usage)] |}.
Proof.
  intros H. destruct operands as [|a [|b l]]; try reflexivity.
  simpl in H. lia.
Qed.

Lemma len_three {A} (a b c : A) (l : list A) :
  (len (a :: b :: c :: l) <? 3) = false.
Proof.
  apply Z.ltb_ge. rewrite !len_cons. pose proof (len_nonneg l). lia.
Qed.

Lemma run_invalid (prog pdf_path page_numbers_str : pystr)
    (extra : list pystr) :
  Exists (fun p => entry_value env p = None) (split comma page_numbers_str) ->
  run env prog (pdf_path :: page_numbers_str :: extra)
  = {| exit_code := 1;
       events := [Emit stderr
                    (error_payload (invalid_page_numbers page_numbers_str))] |}.
Proof.
  intros H.
  destruct (int_of_entries_invalid _ [] H) as (e & Hrun & He).
  unfold run, run_script, main.
  unfold bind at 1. rewrite len_three. unfold when, ret at 1.
  unfold bind at 1. rewrite getitem_second. unfold ret at 1.
  unfold bind at 1. rewrite getitem_third. unfold ret at 1.
  unfold bind at 1. unfold try_except at 1. rewrite Hrun, He.
  reflexivity.
Qed.

Lemma run_parsed (prog pdf_path page_numbers_str : pystr)
    (extra : list pystr) (requested_pages : list Z) :
  map (entry_value env) (split comma page_numbers_str) = map Some requested_pages ->
  run env prog (pdf_path :: page_numbers_str :: extra)
  = after_session env (session env pdf_path requested_pages []).
Proof.
  intros H.
  unfold run, run_script, main.
  unfold bind at 1. rewrite len_three. unfold when, ret at 1.
  unfold bind at 1. rewrite getitem_second. unfold ret at 1.
  unfold bind at 1. rewrite getitem_third. unfold ret at 1.
  unfold bind at 1. unfold try_except at 1.
  rewrite (int_of_entries_parsed _ _ [] H).
  unfold try_except, bind at 1. fold (session env pdf_path requested_pages).
  destruct (session env pdf_path requested_pages []) as [[results|e|c] t];
    try reflexivity.
  unfold after_session, print.
  destruct (stdout_accepts env (success_payload results)); reflexivity.
Qed.

(** The session of a document that opens, lists its pages, serves every
    requested index and closes. *)
Lemma session_served (pdf_path : pystr) (requested_pages : list Z)
    (pdf : PDF) (ps : list Page) (t : trace) :
  pdfplumber_open env pdf_path = inr pdf ->
  pages pdf = inr ps ->
  close pdf = None ->
  forallb (served ps) requested_pages = true ->
  session env pdf_path requested_pages t
  = (Return (map (result_of ps) requested_pages),
     t ++ [Open pdf_path; ReadPages pdf_path]
       ++ flat_map (extractions ps) requested_pages ++ [Close pdf_path]).
Proof.
  intros Hopen Hpages Hclose Hserved.
  unfold session, with_open, call, bind, log, ret.
  rewrite Hopen. simpl. rewrite Hpages, Hclose. simpl.
  rewrite (for_requested_served ps _ [] _ Hserved). simpl.
  now rewrite <- !app_assoc.
Qed.

Lemma session_ends (pdf_path : pystr) (requested_pages : list Z) :
  exists r t, session env pdf_path requested_pages [] = (r, t)
              /\ session_end env pdf_path requested_pages r t.
Proof.
  unfold session, with_open, call, bind, log, ret, raise. simpl.
  destruct (pdfplumber_open env pdf_path) as [e|pdf] eqn:Hopen.
  - do 2 eexists. split; [reflexivity|]. now constructor.
  - destruct (pages pdf) as [e|ps] eqn:Hpages.
    + do 2 eexists. split.
      2:{ apply (pages_fault env _ _ pdf e); assumption. }
      now destruct (close pdf).
    + simpl. destruct (forallb (served ps) requested_pages) eqn:Hserved.
      * rewrite (for_requested_served ps _ [] _ Hserved). simpl.
        destruct (close pdf) as [e|] eqn:Hclose.
        -- do 2 eexists. split; [reflexivity|].
           now apply (close_fault env _ _ pdf ps e).
        -- do 2 eexists. split; [reflexivity|].
           now apply (all_served env _ _ pdf ps).
      * destruct (for_requested_fault ps _ []
                    [Open pdf_path; ReadPages pdf_path] Hserved)
          as (e & evs & Hrun & Hio).
        rewrite Hrun. do 2 eexists. split.
        2:{ apply (page_fault env _ _ pdf ps e evs); assumption. }
        simpl. now destruct (close pdf).
Qed.

Lemma session_end_io (pdf_path : pystr) (requested_pages : list Z)
    (r : outcome (list PageResult)) (t : trace) :
  session_end env pdf_path requested_pages r t -> forallb is_io t = true.
Proof.
  intros H. destruct H; simpl; rewrite ?forallb_app, ?extractions_io;
    try reflexivity.
  match goal with Hio : forallb is_io _ = true |- _ => now rewrite Hio end.
Qed.

End WithEnv.
End ExtractPagesFacts.

(* ===================================================================== *)
(** ** Runs of get_metadata.py *)
(* ===================================================================== *)

Module GetMetadataFacts.
Import GetMetadata GetMetadataRuns.

Section WithEnv.
Variable env : Env.

Lemma len_positive {A} (a : A) (l : list A) : (len (a :: l) >? 0) = true.
Proof. reflexivity. Qed.

Lemma get_metadata_readable (pdf_path : pystr) (size : Z) (ps : list Page)
    (txt : pystr) (t : trace) :
  readable env pdf_path size ps txt ->
  get_metadata env pdf_path t
  = (Return {| pageCount := len ps; fileSize := size; firstPageText := txt |},
     t ++ reading pdf_path ps).
Proof.
  intros (pdf & Hsize & Hopen & Hpages & Hclose & Htxt).
  unfold get_metadata, with_open, call, bind, log, ret, reading.
  rewrite Hsize. simpl. rewrite Hopen. simpl. rewrite Hpages, Hclose.
  destruct ps as [|page ps]; simpl in Htxt.
  - subst txt. simpl. now rewrite <- !app_assoc.
  - destruct Htxt as (tx & Hpage & ->).
    rewrite len_positive, getitem_head. unfold ret.
    rewrite Hpage. simpl. now rewrite <- !app_assoc.
Qed.

(** However [get_metadata] ends, it wrote nothing and did not exit; when it
    returns, the file was readable and the result reports it. *)
Lemma get_metadata_ends (pdf_path : pystr) (t : trace) :
  exists r evs,
    get_metadata env pdf_path t = (r, t ++ evs)
    /\ forallb is_io evs = true
    /\ match r with
       | Return m =>
           exists ps,
             readable env pdf_path (fileSize m) ps (firstPageText m)
             /\ pageCount m = len ps
             /\ evs = reading pdf_path ps
       | Raise _ => True
       | SystemExit _ => False
       end.
Proof.
  unfold get_metadata, with_open, call, bind, log, ret, raise.
  destruct (os_path_getsize env pdf_path) as [e|size] eqn:Hsize; simpl.
  { exists (Raise e), [GetSize pdf_path]. now repeat split. }
  destruct (pdfplumber_open env pdf_path) as [e|pdf] eqn:Hopen; simpl.
  { exists (Raise e), [GetSize pdf_path; Open pdf_path].
    rewrite <- app_assoc. now repeat split. }
  destruct (pages pdf) as [e|ps] eqn:Hpages; simpl.
  { exists (Raise (match close pdf with Some e' => e' | None => e end)),
      [GetSize pdf_path; Open pdf_path; ReadPages pdf_path; Close pdf_path].
    rewrite <- !app_assoc. simpl. now destruct (close pdf). }
  destruct ps as [|page ps].
  - simpl. destruct (close pdf) as [e|] eqn:Hclose.
    + exists (Raise e), (reading pdf_path []).
      rewrite <- !app_assoc. now repeat split.
    + eexists (Return _), (reading pdf_path []).
      rewrite <- !app_assoc. simpl. repeat split.
      exists []. repeat split. now exists pdf.
  - rewrite len_positive, getitem_head. unfold ret.
    destruct (extract_text page) as [e|tx] eqn:Hpage; simpl.
    + exists (Raise (match close pdf with Some e' => e' | None => e end)),
        (reading pdf_path (page :: ps)).
      rewrite <- !app_assoc. simpl. now destruct (close pdf).
    + destruct (close pdf) as [e|] eqn:Hclose.
      * exists (Raise e), (reading pdf_path (page :: ps)).
        rewrite <- !app_assoc. now repeat split.
      * eexists (Return _), (reading pdf_path (page :: ps)).
        rewrite <- !app_assoc. simpl. repeat split.
        exists (page :: ps). repeat split.
        exists pdf. repeat split; auto. simpl. now exists tx.
Qed.

Lemma run_wrong_count (prog : pystr) (operands : list pystr) :
  List.length operands <> 1%nat ->
  run env prog operands
  = {| exit_code := 1; events := [Emit stderr (Text (usage prog))] |}.
Proof.
  intros H. destruct operands as [|a [|b l]]; try reflexivity; [now elim H|].
  unfold run, run_script, main.
  unfold bind at 1.
  replace (len (prog :: a :: b :: l) =? 2) with false.
  - unfold when, negb. unfold bind at 1. now rewrite getitem_head.
  - symmetry. apply Z.eqb_neq. rewrite !len_cons.
    pose proof (len_nonneg l). lia.
Qed.

Lemma run_not_a_file (prog pdf_path : pystr) :
  os_path_isfile env pdf_path = false ->
  run env prog [pdf_path]
  = {| exit_code := 1;
       events := [IsFile pdf_path;
                  Emit stderr (Text (file_not_found pdf_path))] |}.
Proof.
  intros H. unfold run, run_script, main, call, bind, log, ret, when.
  simpl. now rewrite H.
Qed.

Lemma run_a_file (prog pdf_path : pystr) :
  os_path_isfile env pdf_path = true ->
  run env prog [pdf_path]
  = after_metadata env (get_metadata env pdf_path [IsFile pdf_path]).
Proof.
  intros H. unfold run, run_script, main.
  unfold call, bind, log, ret, when, try_except, print. simpl. rewrite H.
  simpl.
  destruct (get_metadata env pdf_path [IsFile pdf_path]) as [[m|e|c] t];
    try reflexivity.
  unfold after_metadata.
  destruct (stdout_accepts env (Dumps false (json_of_metadata m)));
    reflexivity.
Qed.

End WithEnv.
End GetMetadataFacts.

(* ===================================================================== *)
(** ** The page extraction tool *)
(* ===================================================================== *)

Import Loop LoopFacts ExtractPagesRuns ExtractPagesFacts.

Lemma contains_middle (a s b : pystr) : contains s (a ++ s ++ b).
Proof. now exists a, b. Qed.

Lemma out_of_range_text_names (page_num total_pages : Z) :
  contains (str_of_int page_num)
           (ExtractPages.out_of_range_text page_num total_pages)
  /\ contains (str_of_int total_pages)
              (ExtractPages.out_of_range_text page_num total_pages).
Proof.
  unfold ExtractPages.out_of_range_text. split.
  - apply contains_middle.
  - exists (lit "[Page " ++ str_of_int page_num ++ lit " out of range "
            ++ [em_dash] ++ lit " PDF has "), (lit " pages]").
    now rewrite <- !app_assoc.
Qed.

Lemma extractions_in_range (ps : list Page) (req : list Z) :
  Forall (fun n => 0 <= n < len ps) req ->
  flat_map (extractions ps) req
  = flat_map (fun n => [ExtractText n; ExtractTables n]) req.
Proof.
  induction 1 as [|n req Hn _ IH]; simpl; [reflexivity|].
  rewrite IH. unfold extractions.
  apply in_range_spec in Hn. now rewrite Hn.
Qed.

Lemma result_of_in_range (ps : list Page) (req : list Z) :
  Forall (fun n => 0 <= n < len ps) req ->
  forallb (served ps) req = true ->
  Forall2 (fun n r =>
             exists page,
               nth_error ps (Z.to_nat n) = Some page
               /\ extracts page = true
               /\ r = {| ExtractPages.pageNum := n;
                         ExtractPages.text := text_of page;
                         ExtractPages.tables := tables_of page |})
          req (map (result_of ps) req).
Proof.
  induction 1 as [|n req Hn _ IH]; simpl; intros Hs; constructor.
  - apply andb_true_iff in Hs. destruct Hs as [Hs _].
    unfold served in Hs. unfold result_of.
    apply in_range_spec in Hn. rewrite Hn in *. simpl in Hs.
    destruct (nth_error ps (Z.to_nat n)) as [page|]; [|discriminate].
    now exists page.
  - apply IH. now apply andb_true_iff in Hs.
Qed.

(** C1. A request whose entries all parse as integers and all lie inside
    [0, pageCount) ends with exit code 0 exactly when every requested page
    extracts without a fault, the document closes and standard output can
    encode the result; it then writes to standard output the object whose
    "pages" array holds one PageResult per requested index, in the order of
    the request, each the extraction of the page at that index, and every
    occurrence of an index, repeated or not, was extracted anew. *)
Theorem one_result_per_requested_index (env : Env)
    (prog pdf_path page_numbers_str : pystr) (extra : list pystr)
    (requested : list Z) (pdf : PDF) (ps : list Page) :
  map (entry_value env) (split comma page_numbers_str) = map Some requested ->
  pdfplumber_open env pdf_path = inr pdf ->
  pages pdf = inr ps ->
  Forall (fun n => 0 <= n < len ps) requested ->
  let p := ExtractPages.run env prog (pdf_path :: page_numbers_str :: extra) in
  let results := map (result_of ps) requested in
  let out :=
    Dumps false
      (JDict
         [(lit "pages",
           JList
             (map (fun r =>
                     JDict
                       [(lit "pageNum", JInt (ExtractPages.pageNum r));
                        (lit "text", JStr (ExtractPages.text r));
                        (lit "tables",
                         JList
                           (map (fun table =>
                                   JList
                                     (map (fun row => JList (map JStr row))
                                          table))
                                (ExtractPages.tables r)))])
                  results))]) in
  (exit_code p = 0
   <-> forallb (served ps) requested = true
       /\ close pdf = None
       /\ stdout_accepts env out = true)
  /\ (exit_code p = 0 ->
      written stdout (events p) = [out]
      /\ List.length results = List.length requested
      /\ map ExtractPages.pageNum results = requested
      /\ Forall2 (fun n r =>
                    exists page,
                      nth_error ps (Z.to_nat n) = Some page
                      /\ extracts page = true
                      /\ r = {| ExtractPages.pageNum := n;
                                ExtractPages.text := text_of page;
                                ExtractPages.tables := tables_of page |})
                 requested results
      /\ filter is_io (events p)
         = [Open pdf_path; ReadPages pdf_path]
             ++ flat_map (fun n => [ExtractText n; ExtractTables n]) requested
             ++ [Close pdf_path]).
Proof.
  intros Hparse Hopen Hpages Hrange p results out.
  assert (Hout : out = ExtractPages.success_payload results) by reflexivity.
  rewrite Hout. clear Hout out. subst p results.
  rewrite (run_parsed env _ _ _ _ _ Hparse).
  destruct (session_ends env pdf_path requested) as (r & t & Hrun & Hend).
  rewrite Hrun.
  destruct Hend as [e Ho|pdf' e Ho Hp|pdf' ps' e evs Ho Hp Hs Hloop Hio
                    |pdf' ps' e Ho Hp Hs Hc|pdf' ps' Ho Hp Hs Hc];
    simpl; try congruence.
  - split; [split; [discriminate|] | discriminate].
    intros (Hs' & _ & _). rewrite Hopen in Ho. inversion Ho; subst pdf'.
    rewrite Hpages in Hp. inversion Hp; subst ps'. congruence.
  - split; [split; [discriminate|] | discriminate].
    intros (_ & Hc' & _). rewrite Hopen in Ho. inversion Ho; subst pdf'.
    congruence.
  - rewrite Hopen in Ho. inversion Ho; subst pdf'.
    rewrite Hpages in Hp. inversion Hp; subst ps'.
    destruct (stdout_accepts env
                (ExtractPages.success_payload (map (result_of ps) requested)))
      eqn:Hacc; simpl.
    2:{ split; [split; [discriminate|] | discriminate].
        intros (_ & _ & H). discriminate. }
    split; [now split|]. intros _. repeat split.
    + rewrite !written_app. simpl. rewrite written_io; [reflexivity|].
      apply extractions_io.
    + now rewrite length_map.
    + apply pageNum_result_of.
    + now apply result_of_in_range.
    + rewrite (extractions_in_range ps requested Hrange).
      rewrite !filter_app. simpl. rewrite app_nil_r. do 3 f_equal.
      apply forallb_filter_id.
      rewrite <- (extractions_in_range ps requested Hrange).
      apply extractions_io.
Qed.

Lemma one_result_per_requested_index_witness :
  let p := ExtractPages.run Sample.env Sample.prog
             [lit "statement.pdf"; lit "1,0, 1"] in
  exit_code p = 0
  /\ written stdout (events p)
     = [Dumps false
          (JDict
             [(lit "pages",
               JList
                 [JDict [(lit "pageNum", JInt 1); (lit "text", JStr []);
                         (lit "tables", JList [])];
                  JDict [(lit "pageNum", JInt 0);
                         (lit "text", JStr (lit "Statement"));
                         (lit "tables",
                          JList
                            [JList
                               [JList [JStr (lit "Date"); JStr []];
                                JList [JStr (lit "01/02"); JStr []]]])];
                  JDict [(lit "pageNum", JInt 1); (lit "text", JStr []);
                         (lit "tables", JList [])]])])]
  /\ filter is_io (events p)
     = [Open (lit "statement.pdf"); ReadPages (lit "statement.pdf");
        ExtractText 1; ExtractTables 1; ExtractText 0; ExtractTables 0;
        ExtractText 1; ExtractTables 1; Close (lit "statement.pdf")].
Proof.
  assert (Hrange : Forall (fun n => 0 <= n
                             < len [Sample.page0; Sample.page1; Sample.page2])
                          [1; 0; 1])
    by (repeat constructor; unfold len; simpl; lia).
  destruct (one_result_per_requested_index Sample.env Sample.prog
              (lit "statement.pdf") (lit "1,0, 1") [] [1; 0; 1]
              Sample.statement [Sample.page0; Sample.page1; Sample.page2]
              eq_refl eq_refl eq_refl Hrange) as [Hiff Hsuccess].
  assert (Hexit : exit_code (ExtractPages.run Sample.env Sample.prog
                               [lit "statement.pdf"; lit "1,0, 1"]) = 0)
    by (apply Hiff; repeat split; reflexivity).
  destruct (Hsuccess Hexit) as (Hout & _ & _ & _ & Hio).
  split; [exact Hexit|]. split; [exact Hout | exact Hio].
Defined.

(** An index out of range costs the loop one step, which appends the
    placeholder and touches neither the document nor the output. *)
Lemma out_of_range_step (ps : list Page) (n : Z) (rest : list Z)
    (acc : list ExtractPages.PageResult) (t : trace) :
  out_of_range n (len ps) = true ->
  ExtractPages.for_requested ps (len ps) (n :: rest) acc t
  = ExtractPages.for_requested ps (len ps) rest
      (acc ++ [ExtractPages.placeholder n (len ps)]) t.
Proof.
  intros H. simpl. fold (out_of_range n (len ps)). now rewrite H.
Qed.

(** C2, as the specification words it, fails where standard output cannot
    encode the dash of the notice: on an ASCII standard output the request
    for page 0 succeeds, and the same request with the out-of-range index 7
    added exits with code 1 and writes nothing to standard output, though
    the document opens, extracts and closes. *)
Lemma out_of_range_fails_on_ascii_stdout :
  out_of_range 7 3 = true
  /\ pdfplumber_open Narrow.env (lit "statement.pdf") = inr Sample.statement
  /\ forallb (served [Sample.page0; Sample.page1; Sample.page2]) [0; 7] = true
  /\ exit_code
       (ExtractPages.run Narrow.env Sample.prog [lit "statement.pdf"; lit "0"])
     = 0
  /\ exit_code
       (ExtractPages.run Narrow.env Sample.prog
          [lit "statement.pdf"; lit "0,7"])
     = 1
  /\ written stdout
       (events
          (ExtractPages.run Narrow.env Sample.prog
             [lit "statement.pdf"; lit "0,7"]))
     = []
  /\ written stderr
       (events
          (ExtractPages.run Narrow.env Sample.prog
             [lit "statement.pdf"; lit "0,7"]))
     = [Dumps true
          (JDict [(lit "error", JStr (lit "codec can't encode character"))])].
Proof. repeat split. Qed.

(** C2, amended. In a request served by a document that opens and closes,
    when standard output can encode the result, every index outside
    [0, pageCount) yields, at its place in the "pages" array, a placeholder
    with that index, a text naming the index and the page count of the
    document, and no table; the run exits with code 0, the success value on
    standard output and nothing on the error stream. *)
Theorem out_of_range_is_a_placeholder (env : Env)
    (prog pdf_path page_numbers_str : pystr) (extra : list pystr)
    (requested : list Z) (pdf : PDF) (ps : list Page) :
  map (entry_value env) (split comma page_numbers_str) = map Some requested ->
  pdfplumber_open env pdf_path = inr pdf ->
  pages pdf = inr ps ->
  close pdf = None ->
  forallb (served ps) requested = true ->
  let p := ExtractPages.run env prog (pdf_path :: page_numbers_str :: extra) in
  let items :=
    map (fun r =>
           JDict
             [(lit "pageNum", JInt (ExtractPages.pageNum r));
              (lit "text", JStr (ExtractPages.text r));
              (lit "tables",
               JList
                 (map (fun table =>
                         JList (map (fun row => JList (map JStr row)) table))
                      (ExtractPages.tables r)))])
        (map (result_of ps) requested) in
  stdout_accepts env (Dumps false (JDict [(lit "pages", JList items)])) = true ->
  exit_code p = 0
  /\ written stderr (events p) = []
  /\ written stdout (events p)
     = [Dumps false (JDict [(lit "pages", JList items)])]
  /\ Forall2 (fun n item =>
                out_of_range n (len ps) = true ->
                let notice :=
                  lit "[Page " ++ str_of_int n ++ lit " out of range "
                    ++ [em_dash] ++ lit " PDF has " ++ str_of_int (len ps)
                    ++ lit " pages]" in
                item = JDict [(lit "pageNum", JInt n);
                              (lit "text", JStr notice);
                              (lit "tables", JList [])]
                /\ contains (str_of_int n) notice
                /\ contains (str_of_int (len ps)) notice)
             requested items.
Proof.
  intros Hparse Hopen Hpages Hclose Hserved p items Hacc. subst p.
  rewrite (run_parsed env _ _ _ _ _ Hparse).
  rewrite (session_served env _ _ pdf ps [] Hopen Hpages Hclose Hserved).
  unfold after_session.
  change (ExtractPages.success_payload (map (result_of ps) requested))
    with (Dumps false (JDict [(lit "pages", JList items)])).
  rewrite Hacc. cbn [exit_code events].
  split; [reflexivity|]. split; [|split].
  - rewrite !written_app. simpl. rewrite written_io; [reflexivity|].
    apply extractions_io.
  - rewrite !written_app. simpl. rewrite written_io; [reflexivity|].
    apply extractions_io.
  - subst items. rewrite map_map.
    apply NormalizationFacts.Forall2_map_spec. intros n. cbv beta.
    intros Hn. cbv zeta. unfold result_of. rewrite Hn.
    destruct (out_of_range_text_names n (len ps)) as [Hidx Htotal].
    split; [reflexivity|]. split; [exact Hidx | exact Htotal].
Qed.

Lemma out_of_range_is_a_placeholder_witness :
  let p := ExtractPages.run Sample.env Sample.prog
             [lit "statement.pdf"; lit "1,4,-5"] in
  exit_code p = 0
  /\ written stderr (events p) = []
  /\ written stdout (events p)
     = [Dumps false
          (JDict
             [(lit "pages",
               JList
                 [JDict [(lit "pageNum", JInt 1); (lit "text", JStr []);
                         (lit "tables", JList [])];
                  JDict [(lit "pageNum", JInt 4);
                         (lit "text",
                          JStr (lit "[Page 4 out of range " ++ [em_dash]
                                  ++ lit " PDF has 3 pages]"));
                         (lit "tables", JList [])];
                  JDict [(lit "pageNum", JInt (-5));
                         (lit "text",
                          JStr (lit "[Page -5 out of range " ++ [em_dash]
                                  ++ lit " PDF has 3 pages]"));
                         (lit "tables", JList [])]])])].
Proof.
  destruct (out_of_range_is_a_placeholder Sample.env Sample.prog
              (lit "statement.pdf") (lit "1,4,-5") [] [1; 4; -5]
              Sample.statement [Sample.page0; Sample.page1; Sample.page2]
              eq_refl eq_refl eq_refl eq_refl eq_refl eq_refl)
    as (Hexit & Herr & Hout & _).
  split; [exact Hexit|]. split; [exact Herr | exact Hout].
Defined.

(** The example of the specification: pages "0,1,4,5" of a document of
    three pages. *)
Example pages_0_1_4_5_of_three :
  let p := ExtractPages.run Sample.env Sample.prog
             [lit "statement.pdf"; lit "0,1,4,5"] in
  exit_code p = 0
  /\ written stderr (events p) = []
  /\ written stdout (events p)
     = [Dumps false
          (JDict
             [(lit "pages",
               JList
                 (map (fun r =>
                         JDict
                           [(lit "pageNum", JInt (ExtractPages.pageNum r));
                            (lit "text", JStr (ExtractPages.text r));
                            (lit "tables",
                             JList
                               (map (fun table =>
                                       JList
                                         (map (fun row => JList (map JStr row))
                                              table))
                                    (ExtractPages.tables r)))])
                      [{| ExtractPages.pageNum := 0;
                             ExtractPages.text := lit "Statement";
                             ExtractPages.tables :=
                               [[[lit "Date"; []]; [lit "01/02"; []]]] |};
                          {| ExtractPages.pageNum := 1;
                             ExtractPages.text := [];
                             ExtractPages.tables := [] |};
                          ExtractPages.placeholder 4 3;
                          ExtractPages.placeholder 5 3]))])].
Proof. repeat split. Qed.

Example out_of_range_text_example :
  ExtractPages.out_of_range_text (-5) 3
  = lit "[Page -5 out of range " ++ [em_dash] ++ lit " PDF has 3 pages]".
Proof. reflexivity. Qed.

(** C6. When an entry of the page-numbers argument does not parse as an
    integer, the run exits with code 1; its single event is the error
    object written to the error stream, whose "error" string is
    "Invalid page numbers: " followed by the argument as it was given: no
    file was tested, opened or read. *)
Theorem malformed_page_numbers (env : Env)
    (prog pdf_path page_numbers_str : pystr) (extra : list pystr) :
  Exists (fun p => entry_value env p = None) (split comma page_numbers_str) ->
  let p := ExtractPages.run env prog (pdf_path :: page_numbers_str :: extra) in
  exists msg,
    exit_code p = 1
    /\ events p = [Emit stderr (Dumps true (JDict [(lit "error", JStr msg)]))]
    /\ msg = lit "Invalid page numbers: " ++ page_numbers_str
    /\ contains page_numbers_str msg
    /\ existsb is_io (events p) = false
    /\ existsb is_open (events p) = false
    /\ written stdout (events p) = [].
Proof.
  intros H p. subst p. rewrite (run_invalid env _ _ _ _ H).
  exists (lit "Invalid page numbers: " ++ page_numbers_str).
  repeat split.
  exists (lit "Invalid page numbers: "), []. now rewrite app_nil_r.
Qed.

Lemma malformed_page_numbers_witness :
  let p := ExtractPages.run Sample.env Sample.prog
             [lit "statement.pdf"; lit "a,b"] in
  exists msg,
    exit_code p = 1
    /\ events p = [Emit stderr (Dumps true (JDict [(lit "error", JStr msg)]))]
    /\ msg = lit "Invalid page numbers: a,b"
    /\ contains (lit "a,b") msg
    /\ existsb is_io (events p) = false
    /\ existsb is_open (events p) = false
    /\ written stdout (events p) = [].
Proof.
  apply (malformed_page_numbers Sample.env Sample.prog (lit "statement.pdf")
           (lit "a,b") []).
  apply Exists_cons_hd. reflexivity.
Defined.

(** C10. A run of the page extraction tool that exits with code 0 wrote
    one object whose "pages" array has at least one PageResult: splitting
    on commas always gives at least one entry, an empty or all-white-space
    entry is no integer, and so a request that passed validation has an
    index. *)
Theorem successful_run_has_a_page (env : Env) (prog : pystr)
    (operands : list pystr) :
  exit_code (ExtractPages.run env prog operands) = 0 ->
  (forall s, split comma s <> [])
  /\ (forall entry, all_space entry -> entry_value env entry = None)
  /\ exists items,
       written stdout (events (ExtractPages.run env prog operands))
       = [Dumps false (JDict [(lit "pages", JList items)])]
       /\ items <> []
       /\ Forall (fun item =>
                    exists n txt tbls,
                      item = JDict [(lit "pageNum", JInt n);
                                    (lit "text", JStr txt);
                                    (lit "tables", JList tbls)])
                 items.
Proof.
  intros Hexit. split; [intros s; apply split_nonempty|]. split.
  { intros entry H. unfold entry_value. now rewrite strip_all_space. }
  destruct operands as [|pdf_path [|page_numbers_str extra]];
    try (rewrite run_too_few in Hexit by (simpl; lia); discriminate).
  destruct (entries_cases env (split comma page_numbers_str))
    as [(requested & Hparse)|Hbad].
  2:{ rewrite (run_invalid env _ _ _ _ Hbad) in Hexit. discriminate. }
  rewrite (run_parsed env _ _ _ _ _ Hparse) in Hexit |- *.
  destruct (session_ends env pdf_path requested) as (r & t & Hrun & Hend).
  rewrite Hrun in Hexit |- *.
  destruct Hend; simpl in Hexit; try discriminate.
  unfold after_session in Hexit |- *.
  destruct (stdout_accepts env _); simpl in Hexit; try discriminate.
  exists (map ExtractPages.json_of_page_result
              (map (result_of ps) requested)).
  split; [|split].
  - cbn [events]. rewrite !written_app.
    rewrite (written_io stdout (flat_map _ _)) by apply extractions_io.
    reflexivity.
  - intros Hnil. apply map_eq_nil, map_eq_nil in Hnil. subst requested.
    apply map_eq_nil in Hparse.
    now apply (split_nonempty comma page_numbers_str).
  - apply Forall_map, Forall_forall. intros r _. now do 3 eexists.
Qed.

Lemma successful_run_has_a_page_witness :
  exists items,
    written stdout
      (events (ExtractPages.run Sample.env Sample.prog
                 [lit "statement.pdf"; lit "7"]))
    = [Dumps false (JDict [(lit "pages", JList items)])]
    /\ items <> []
    /\ Forall (fun item =>
                 exists n txt tbls,
                   item = JDict [(lit "pageNum", JInt n);
                                 (lit "text", JStr txt);
                                 (lit "tables", JList tbls)])
              items.
Proof.
  apply (successful_run_has_a_page Sample.env Sample.prog
           [lit "statement.pdf"; lit "7"]).
  reflexivity.
Defined.

(* ===================================================================== *)
(** ** The metadata tool *)
(* ===================================================================== *)

Import GetMetadataRuns GetMetadataFacts.

(** C7. For a path that [os.path.isfile] rejects, the metadata tool exits
    with code 1 after writing to the error stream a "file not found"
    message that ends with the path; the test of the path is the only
    access made, and the path is never opened as a PDF. *)
Theorem missing_file_is_reported (env : Env) (prog pdf_path : pystr) :
  os_path_isfile env pdf_path = false ->
  let p := GetMetadata.run env prog [pdf_path] in
  exit_code p = 1
  /\ events p
     = [IsFile pdf_path;
        Emit stderr (Text (lit "Error: file not found: " ++ pdf_path))]
  /\ contains (lit "file not found")
              (lit "Error: file not found: " ++ pdf_path)
  /\ contains pdf_path (lit "Error: file not found: " ++ pdf_path)
  /\ existsb is_open (events p) = false
  /\ written stdout (events p) = [].
Proof.
  intros H p. subst p. rewrite (run_not_a_file env prog pdf_path H).
  simpl. repeat split.
  - now exists (lit "Error: "), (lit ": " ++ pdf_path).
  - exists (lit "Error: file not found: "), []. now rewrite app_nil_r.
Qed.

Lemma missing_file_is_reported_witness :
  let p := GetMetadata.run Sample.env Sample.prog [lit "nope.pdf"] in
  exit_code p = 1
  /\ events p
     = [IsFile (lit "nope.pdf");
        Emit stderr (Text (lit "Error: file not found: nope.pdf"))]
  /\ contains (lit "file not found") (lit "Error: file not found: nope.pdf")
  /\ contains (lit "nope.pdf") (lit "Error: file not found: nope.pdf")
  /\ existsb is_open (events p) = false
  /\ written stdout (events p) = [].
Proof.
  apply (missing_file_is_reported Sample.env Sample.prog (lit "nope.pdf")).
  reflexivity.
Defined.

(** A readable regular file is reported with exit code 0 when standard
    output can encode the report. *)
Lemma run_readable (env : Env) (prog pdf_path : pystr) (size : Z)
    (ps : list Page) (txt : pystr) :
  os_path_isfile env pdf_path = true ->
  readable env pdf_path size ps txt ->
  stdout_accepts env
    (Dumps false
       (GetMetadata.json_of_metadata
          {| GetMetadata.pageCount := len ps;
             GetMetadata.fileSize := size;
             GetMetadata.firstPageText := txt |})) = true ->
  GetMetadata.run env prog [pdf_path]
  = {| exit_code := 0;
       events :=
         ([IsFile pdf_path] ++ reading pdf_path ps)
           ++ [Emit stdout
                 (Dumps false
                    (GetMetadata.json_of_metadata
                       {| GetMetadata.pageCount := len ps;
                          GetMetadata.fileSize := size;
                          GetMetadata.firstPageText := txt |}))] |}.
Proof.
  intros Hfile Hread Hacc. rewrite (run_a_file env prog pdf_path Hfile).
  rewrite (get_metadata_readable env _ _ _ _ _ Hread).
  unfold after_metadata. now rewrite Hacc.
Qed.

(** C8. A run of the metadata tool that exits with code 0 had one operand,
    a file whose size was read and which opened and closed; the value on
    standard output has that size as fileSize, the number of pages of the
    opened document as pageCount, and as firstPageText a string, which is
    empty when the document has no page or when the extraction of its first
    page returns nothing or the empty string. *)
Theorem metadata_reports_the_file (env : Env) (prog : pystr)
    (operands : list pystr) :
  exit_code (GetMetadata.run env prog operands) = 0 ->
  exists pdf_path size ps txt,
    operands = [pdf_path]
    /\ os_path_getsize env pdf_path = inr size
    /\ readable env pdf_path size ps txt
    /\ written stdout (events (GetMetadata.run env prog operands))
       = [Dumps false
            (JDict [(lit "pageCount", JInt (len ps));
                    (lit "fileSize", JInt size);
                    (lit "firstPageText", JStr txt)])]
    /\ (ps = [] -> txt = [])
    /\ (forall page rest,
          ps = page :: rest ->
          extract_text page = inr None \/ extract_text page = inr (Some []) ->
          txt = []).
Proof.
  intros Hexit.
  destruct operands as [|pdf_path [|b l]];
    try (rewrite run_wrong_count in Hexit by (simpl; lia); discriminate).
  destruct (os_path_isfile env pdf_path) eqn:Hfile.
  2:{ rewrite (run_not_a_file env prog pdf_path Hfile) in Hexit.
      discriminate. }
  rewrite (run_a_file env prog pdf_path Hfile) in Hexit |- *.
  destruct (get_metadata_ends env pdf_path [IsFile pdf_path])
    as (r & evs & Hrun & Hio & Hr).
  rewrite Hrun in Hexit |- *.
  destruct r as [m|e|c]; [|simpl in Hexit; discriminate|contradiction].
  unfold after_metadata in Hexit |- *.
  destruct (stdout_accepts env _); simpl in Hexit; try discriminate.
  destruct Hr as (ps & Hread & Hcount & _).
  exists pdf_path, (GetMetadata.fileSize m), ps, (GetMetadata.firstPageText m).
  split; [reflexivity|]. split; [now destruct Hread as (pdf & ? & _)|].
  split; [exact Hread|]. split.
  - simpl. rewrite written_app, (written_io stdout evs Hio). simpl.
    unfold GetMetadata.json_of_metadata. now rewrite Hcount.
  - destruct Hread as (pdf & _ & _ & _ & _ & Htxt). split.
    + intros ->. exact Htxt.
    + intros page rest -> Hnothing. simpl in Htxt.
      destruct Htxt as (t & Ht & ->).
      destruct Hnothing as [H|H]; rewrite H in Ht; inversion Ht; reflexivity.
Qed.

Lemma metadata_reports_the_file_witness :
  exists pdf_path size ps txt,
    [lit "blank.pdf"] = [pdf_path]
    /\ os_path_getsize Sample.env pdf_path = inr size
    /\ readable Sample.env pdf_path size ps txt
    /\ written stdout
         (events (GetMetadata.run Sample.env Sample.prog [lit "blank.pdf"]))
       = [Dumps false
            (JDict [(lit "pageCount", JInt (len ps));
                    (lit "fileSize", JInt size);
                    (lit "firstPageText", JStr txt)])]
    /\ (ps = [] -> txt = [])
    /\ (forall page rest,
          ps = page :: rest ->
          extract_text page = inr None \/ extract_text page = inr (Some []) ->
          txt = []).
Proof.
  apply (metadata_reports_the_file Sample.env Sample.prog [lit "blank.pdf"]).
  reflexivity.
Defined.

Example metadata_of_statement :
  GetMetadata.run Sample.env Sample.prog [lit "statement.pdf"]
  = {| exit_code := 0;
       events :=
         [IsFile (lit "statement.pdf"); GetSize (lit "statement.pdf");
          Open (lit "statement.pdf"); ReadPages (lit "statement.pdf");
          ExtractText 0; Close (lit "statement.pdf");
          Emit stdout
            (Dumps false
               (JDict [(lit "pageCount", JInt 3);
                       (lit "fileSize", JInt 48213);
                       (lit "firstPageText", JStr (lit "Statement"))]))] |}.
Proof. reflexivity. Qed.

(* ===================================================================== *)
(** ** Both tools: one output per run, and usage errors *)
(* ===================================================================== *)

(** A fault while the request is served ends the session with an exception
    and a trace without output. *)
Lemma session_fault (env : Env) (pdf_path : pystr) (requested : list Z)
    (pdf : PDF) (ps : list Page) (e : exn) (t : trace) :
  pdfplumber_open env pdf_path = inr pdf ->
  pages pdf = inr ps ->
  ExtractPages.for_requested ps (len ps) requested []
    [Open pdf_path; ReadPages pdf_path] = (Raise e, t) ->
  session env pdf_path requested []
  = (Raise (match close pdf with Some e' => e' | None => e end),
     t ++ [Close pdf_path])
  /\ forallb is_io t = true.
Proof.
  intros Hopen Hpages Hloop. split.
  - unfold session, with_open, call, bind, log, ret.
    rewrite Hopen. simpl. rewrite Hpages. simpl. rewrite Hloop.
    now destruct (close pdf).
  - destruct (forallb (served ps) requested) eqn:Hserved.
    + rewrite (for_requested_served ps _ [] _ Hserved) in Hloop.
      discriminate.
    + destruct (for_requested_fault ps _ []
                  [Open pdf_path; ReadPages pdf_path] Hserved)
        as (e' & evs & Hrun & Hio).
      rewrite Hrun in Hloop. inversion Hloop; subst. exact Hio.
Qed.

Lemma extract_pages_one_output (env : Env) (prog : pystr)
    (operands : list pystr) :
  let p := ExtractPages.run env prog operands in
  pages_written p \/ pages_failed p.
Proof.
  intros p. subst p. unfold pages_written, pages_failed.
  destruct operands as [|pdf_path [|page_numbers_str extra]];
    try (rewrite run_too_few by (simpl; lia); right; simpl;
         repeat split; now eexists).
  destruct (entries_cases env (split comma page_numbers_str))
    as [(requested & Hparse)|Hbad].
  2:{ rewrite (run_invalid env _ _ _ _ Hbad). right. simpl.
      repeat split. now eexists. }
  rewrite (run_parsed env _ _ _ _ _ Hparse).
  destruct (session_ends env pdf_path requested) as (r & t & Hrun & Hend).
  rewrite Hrun. pose proof (session_end_io env _ _ _ _ Hend) as Hio.
  destruct r as [results|e|c]; simpl.
  - destruct (stdout_accepts env _); simpl; [left | right];
      rewrite !written_app, !(written_io _ t Hio); simpl;
      repeat split; now eexists.
  - right. rewrite !written_app, !(written_io _ t Hio). simpl.
    repeat split. now eexists.
  - inversion Hend.
Qed.

Lemma get_metadata_one_output (env : Env) (prog : pystr)
    (operands : list pystr) :
  let p := GetMetadata.run env prog operands in
  metadata_written p \/ metadata_failed p.
Proof.
  intros p. subst p. unfold metadata_written, metadata_failed.
  destruct operands as [|pdf_path [|b l]];
    try (rewrite run_wrong_count by (simpl; lia); right; simpl;
         repeat split; now eexists).
  destruct (os_path_isfile env pdf_path) eqn:Hfile.
  2:{ rewrite (run_not_a_file env prog pdf_path Hfile). right. simpl.
      repeat split. now eexists. }
  rewrite (run_a_file env prog pdf_path Hfile).
  destruct (get_metadata_ends env pdf_path [IsFile pdf_path])
    as (r & evs & Hrun & Hio & Hr).
  rewrite Hrun.
  destruct r as [m|e|c]; simpl; [|right|contradiction].
  - destruct (stdout_accepts env _); simpl; [left | right];
      rewrite !written_app, !(written_io _ evs Hio); simpl;
      repeat split; now eexists.
  - rewrite !written_app, !(written_io _ evs Hio); simpl.
    repeat split. now eexists.
Qed.

(** C3. Every run of either tool ends in one of two ways: exit code 0 with
    one JSON value on standard output and nothing on the error stream, or
    exit code 1 with one error on the error stream and nothing on standard
    output; the two exclude each other.  A fault while the requested pages
    are served is of the second kind: the results gathered before it are
    not written. *)
Theorem exactly_one_output (env : Env) (prog : pystr) (operands : list pystr) :
  let e := ExtractPages.run env prog operands in
  let m := GetMetadata.run env prog operands in
  (pages_written e \/ pages_failed e)
  /\ ~ (pages_written e /\ pages_failed e)
  /\ (metadata_written m \/ metadata_failed m)
  /\ ~ (metadata_written m /\ metadata_failed m)
  /\ (forall pdf_path page_numbers_str extra requested pdf ps fault t,
        operands = pdf_path :: page_numbers_str :: extra ->
        map (entry_value env) (split comma page_numbers_str)
        = map Some requested ->
        pdfplumber_open env pdf_path = inr pdf ->
        pages pdf = inr ps ->
        ExtractPages.for_requested ps (len ps) requested []
          [Open pdf_path; ReadPages pdf_path] = (Raise fault, t) ->
        exit_code e = 1
        /\ written stdout (events e) = []
        /\ written stderr (events e)
           = [Dumps true
                (JDict
                   [(lit "error",
                     JStr (exn_str (match close pdf with
                                    | Some e' => e'
                                    | None => fault
                                    end)))])]).
Proof.
  intros e m. subst e m.
  split; [apply extract_pages_one_output|].
  split; [intros [(H0 & _) (H1 & _)]; congruence|].
  split; [apply get_metadata_one_output|].
  split; [intros [(H0 & _) (H1 & _)]; congruence|].
  intros pdf_path page_numbers_str extra requested pdf ps fault t
         -> Hparse Hopen Hpages Hloop.
  rewrite (run_parsed env _ _ _ _ _ Hparse).
  destruct (session_fault env _ _ _ _ _ _ Hopen Hpages Hloop) as [Hrun Hio].
  rewrite Hrun. simpl.
  rewrite !written_app, !(written_io _ t Hio). simpl. now repeat split.
Qed.

Lemma exactly_one_output_witness :
  let e := ExtractPages.run Sample.env Sample.prog
             [lit "statement.pdf"; lit "0,2,1"] in
  exit_code e = 1
  /\ written stdout (events e) = []
  /\ written stderr (events e)
     = [Dumps true (JDict [(lit "error", JStr (lit "No /Root object!"))])].
Proof.
  destruct (exactly_one_output Sample.env Sample.prog
              [lit "statement.pdf"; lit "0,2,1"]) as (_ & _ & _ & _ & H).
  apply (H (lit "statement.pdf") (lit "0,2,1") [] [0; 2; 1] Sample.statement
           [Sample.page0; Sample.page1; Sample.page2] Sample.corrupt
           [Open (lit "statement.pdf"); ReadPages (lit "statement.pdf");
            ExtractText 0; ExtractTables 0; ExtractText 2]);
    reflexivity.
Defined.

(** C9, as the specification words it, fails for the page extraction tool:
    with a third operand it reports no usage error but opens the file and
    serves the request. *)
Lemma extra_operand_is_no_usage_error :
  let operands := [lit "statement.pdf"; lit "0"; lit "extra"] in
  let p := ExtractPages.run Sample.env Sample.prog operands in
  List.length operands <> 2%nat
  /\ exit_code p = 0
  /\ written stderr (events p) = []
  /\ existsb is_open (events p) = true
  /\ p <> {| exit_code := 1;
             events :=
               [Emit stderr
                  (Dumps true (JDict [(lit "error", JStr (lit "Usage: extract_pages.py <pdf_path> <page_numbers>"))]))] |}.
Proof.
  simpl. repeat split; try reflexivity; discriminate.
Qed.

(** C9, amended. The metadata tool given any number of operands but one,
    and the page extraction tool given fewer than two, write a usage
    message to the error stream and exit with code 1, and that message is
    the only event of the run; operands after the second are ignored by
    the page extraction tool. *)
Theorem usage_errors (env : Env) (prog : pystr) (operands : list pystr) :
  (List.length operands <> 1%nat ->
   GetMetadata.run env prog operands
   = {| exit_code := 1;
        events :=
          [Emit stderr (Text (lit "Usage: " ++ prog ++ lit " <path_to_pdf>"))] |})
  /\ ((List.length operands < 2)%nat ->
      ExtractPages.run env prog operands
      = {| exit_code := 1;
           events :=
             [Emit stderr
                (Dumps true (JDict [(lit "error", JStr (lit "Usage: extract_pages.py <pdf_path> <page_numbers>"))]))] |})
  /\ (forall pdf_path page_numbers_str extra,
        operands = pdf_path :: page_numbers_str :: extra ->
        ExtractPages.run env prog operands
        = ExtractPages.run env prog [pdf_path; page_numbers_str]).
Proof.
  split; [apply run_wrong_count|]. split; [apply run_too_few|].
  intros pdf_path page_numbers_str extra ->.
  destruct (entries_cases env (split comma page_numbers_str))
    as [(requested & Hparse)|Hbad].
  - now rewrite !(run_parsed env _ _ _ _ _ Hparse).
  - now rewrite !(run_invalid env _ _ _ _ Hbad).
Qed.

Lemma usage_errors_witness :
  GetMetadata.run Sample.env Sample.prog [lit "a.pdf"; lit "b.pdf"]
  = {| exit_code := 1;
       events :=
         [Emit stderr
            (Text (lit "Usage: extract_pages.py <path_to_pdf>"))] |}.
Proof.
  apply (usage_errors Sample.env Sample.prog [lit "a.pdf"; lit "b.pdf"]).
  simpl. lia.
Defined.

(* ===================================================================== *)
(** ** White space and commas in the page-numbers argument *)
(* ===================================================================== *)

Import Behaviour.

Lemma all_space_forallb (l : pystr) :
  forallb Py_UNICODE_ISSPACE l = true <-> all_space l.
Proof.
  unfold all_space. rewrite forallb_forall, Forall_forall. reflexivity.
Qed.

Lemma lstrip_space_app (l s : pystr) :
  all_space l -> lstrip (l ++ s) = lstrip s.
Proof.
  induction 1 as [|c l Hc _ IH]; simpl; [reflexivity|]. now rewrite Hc.
Qed.

Lemma rstrip_app_space (s r : pystr) :
  all_space r -> rstrip (s ++ r) = rstrip s.
Proof.
  intros H. unfold rstrip. rewrite rev_app_distr.
  now rewrite lstrip_space_app by now apply all_space_rev.
Qed.

Lemma lstrip_app_cases (s r : pystr) :
  (all_space s /\ lstrip (s ++ r) = lstrip r)
  \/ lstrip (s ++ r) = lstrip s ++ r.
Proof.
  induction s as [|c s [[Hs IH]|IH]]; simpl.
  - left. split; [constructor | reflexivity].
  - destruct (Py_UNICODE_ISSPACE c) eqn:Hc.
    + left. split; [now constructor | exact IH].
    + now right.
  - destruct (Py_UNICODE_ISSPACE c); now right.
Qed.

(** White space put around a string is stripped with it. *)
Lemma strip_padded (l s r : pystr) :
  all_space l -> all_space r -> strip (l ++ s ++ r) = strip s.
Proof.
  intros Hl Hr. unfold strip. rewrite (lstrip_space_app l _ Hl).
  destruct (lstrip_app_cases s r) as [[Hs Heq]|Heq]; rewrite Heq.
  - rewrite (lstrip_all_space r Hr), (lstrip_all_space s Hs). reflexivity.
  - now apply rstrip_app_space.
Qed.

Lemma padded_entry_value (env : Env) (p p' : pystr) :
  padded p p' -> entry_value env p' = entry_value env p.
Proof.
  intros (l & r & Hl & Hr & ->). unfold entry_value.
  now rewrite strip_padded by now apply all_space_forallb.
Qed.

(** X1. White space around the entries of the page-numbers argument is
    ignored: when the entries of one argument are those of another with
    white space added around them, and the latter are all integers, both
    requests run alike, event for event. *)
Theorem white_space_around_entries_is_ignored (env : Env)
    (prog pdf_path s s' : pystr) (extra extra' : list pystr)
    (requested : list Z) :
  map (entry_value env) (split comma s) = map Some requested ->
  Forall2 padded (split comma s) (split comma s') ->
  ExtractPages.run env prog (pdf_path :: s' :: extra')
  = ExtractPages.run env prog (pdf_path :: s :: extra).
Proof.
  intros Hparse Hpad.
  assert (Hparse' : map (entry_value env) (split comma s')
                    = map Some requested).
  { rewrite <- Hparse. clear Hparse.
    induction Hpad as [|p p' ps ps' Hp _ IH]; simpl; [reflexivity|].
    now rewrite (padded_entry_value env p p' Hp), IH. }
  now rewrite (run_parsed env _ _ _ _ _ Hparse),
              (run_parsed env _ _ _ _ _ Hparse').
Qed.

Lemma white_space_around_entries_is_ignored_witness :
  ExtractPages.run Sample.env Sample.prog
    [lit "statement.pdf"; lit " 0,1 ,  4"; lit "more"]
  = ExtractPages.run Sample.env Sample.prog [lit "statement.pdf"; lit "0,1,4"].
Proof.
  apply (white_space_around_entries_is_ignored Sample.env Sample.prog
           (lit "statement.pdf") (lit "0,1,4") (lit " 0,1 ,  4")
           [] [lit "more"] [0; 1; 4]).
  - reflexivity.
  - simpl. repeat constructor.
    + exists (lit " "), []. repeat split.
    + exists [], (lit " "). repeat split.
    + exists (lit "  "), []. repeat split.
Defined.

Lemma split_length (sep : codepoint) (s : pystr) :
  List.length (split sep s) = S (count_occ N.eq_dec s sep).
Proof.
  induction s as [|c s IH]; simpl; [reflexivity|].
  destruct (N.eqb_spec c sep) as [->|Hne].
  - destruct (N.eq_dec sep sep) as [_|H]; [|now elim H].
    simpl. now rewrite IH.
  - destruct (N.eq_dec c sep) as [H|_]; [now elim Hne|].
    destruct (split sep s) as [|piece pieces]; simpl in *; [discriminate|].
    exact IH.
Qed.

(** X2. A run of the page extraction tool that exits with code 0 wrote as
    many PageResults as the page-numbers argument has commas, plus one. *)
Theorem one_result_more_than_commas (env : Env)
    (prog pdf_path page_numbers_str : pystr) (extra : list pystr) :
  exit_code
    (ExtractPages.run env prog (pdf_path :: page_numbers_str :: extra)) = 0 ->
  exists results,
    written stdout
      (events
         (ExtractPages.run env prog (pdf_path :: page_numbers_str :: extra)))
    = [Dumps false
         (JDict
            [(lit "pages",
              JList
                (map (fun r =>
                        JDict
                          [(lit "pageNum", JInt (ExtractPages.pageNum r));
                           (lit "text", JStr (ExtractPages.text r));
                           (lit "tables",
                            JList
                              (map (fun table =>
                                      JList
                                        (map (fun row => JList (map JStr row))
                                             table))
                                   (ExtractPages.tables r)))])
                     results))])]
    /\ List.length results = S (commas page_numbers_str).
Proof.
  intros Hexit.
  destruct (entries_cases env (split comma page_numbers_str))
    as [(requested & Hparse)|Hbad].
  2:{ rewrite (run_invalid env _ _ _ _ Hbad) in Hexit. discriminate. }
  rewrite (run_parsed env _ _ _ _ _ Hparse) in Hexit |- *.
  destruct (session_ends env pdf_path requested) as (r & t & Hrun & Hend).
  rewrite Hrun in Hexit |- *.
  destruct Hend; try (simpl in Hexit; discriminate).
  unfold after_session in Hexit |- *.
  destruct (stdout_accepts env _); simpl in Hexit; try discriminate.
  exists (map (result_of ps) requested). split.
  - cbn [events]. rewrite !written_app.
    rewrite (written_io stdout (flat_map _ _)) by apply extractions_io.
    reflexivity.
  - rewrite length_map. unfold commas. rewrite <- split_length.
    apply (f_equal (@List.length _)) in Hparse.
    now rewrite !length_map in Hparse.
Qed.

Lemma one_result_more_than_commas_witness :
  exists results,
    written stdout
      (events
         (ExtractPages.run Sample.env Sample.prog
            [lit "statement.pdf"; lit "1,9,0,1"]))
    = [Dumps false
         (JDict
            [(lit "pages",
              JList
                (map (fun r =>
                        JDict
                          [(lit "pageNum", JInt (ExtractPages.pageNum r));
                           (lit "text", JStr (ExtractPages.text r));
                           (lit "tables",
                            JList
                              (map (fun table =>
                                      JList
                                        (map (fun row => JList (map JStr row))
                                             table))
                                   (ExtractPages.tables r)))])
                     results))])]
    /\ List.length results = 4%nat.
Proof.
  apply (one_result_more_than_commas Sample.env Sample.prog
           (lit "statement.pdf") (lit "1,9,0,1") []).
  reflexivity.
Defined.

(** X3. A normalized cell is the empty string exactly when the extracted
    cell was missing or held nothing but white space: the output does not
    tell the two apart. *)
Theorem empty_cell_was_missing_or_blank (c : cell) :
  ExtractPages.normalize_cell c = []
  <-> c = None \/ exists s, c = Some s /\ all_space s.
Proof.
  unfold ExtractPages.normalize_cell. split.
  - destruct c as [s|]; [|now left]. rewrite or_empty_Some_str.
    intros Hs. right. exists s. split; [reflexivity|].
    destruct (strip_decompose s) as (l & r & Heq & Hl & Hr & _).
    rewrite Hs in Heq. rewrite Heq. unfold all_space in *.
    now apply Forall_app.
  - intros [->|(s & -> & Hs)]; [reflexivity|].
    rewrite or_empty_Some_str. now apply strip_all_space.
Qed.

(* ===================================================================== *)
(** ** Faults while a request is served *)
(* ===================================================================== *)

Lemma for_requested_prefix (ps : list Page) (before rest : list Z)
    (acc : list ExtractPages.PageResult) (t : trace) :
  forallb (served ps) before = true ->
  ExtractPages.for_requested ps (len ps) (before ++ rest) acc t
  = ExtractPages.for_requested ps (len ps) rest
      (acc ++ map (result_of ps) before)
      (t ++ flat_map (extractions ps) before).
Proof.
  revert acc t. induction before as [|n before IH]; intros acc t H.
  - simpl. now rewrite !app_nil_r.
  - simpl in H. apply andb_true_iff in H. destruct H as [Hn Hrest].
    change ((n :: before) ++ rest) with (n :: (before ++ rest)).
    cbn [ExtractPages.for_requested map flat_map].
    unfold served in Hn. unfold result_of at 1. unfold extractions at 1.
    fold (out_of_range n (len ps)).
    destruct (out_of_range n (len ps)) eqn:Hrange.
    + rewrite (IH _ _ Hrest), <- app_assoc. reflexivity.
    + simpl in Hn. apply in_range_spec in Hrange.
      destruct (getitem_in_range ps n Hrange) as (page & Hnth & Hget).
      rewrite Hnth in Hn |- *. unfold bind at 1. rewrite Hget.
      unfold ret at 1. unfold bind at 1.
      rewrite (extract_page_extracts page n t Hn).
      rewrite (IH _ _ Hrest), <- !app_assoc. reflexivity.
Qed.

Lemma extract_page_first_fault (page : Page) (n : Z) (e : exn) (t : trace) :
  first_fault page = Some e ->
  ExtractPages.extract_page page n t = (Raise e, t ++ page_calls page n).
Proof.
  unfold first_fault, page_calls, ExtractPages.extract_page.
  unfold call, bind, log, ret, raise.
  destruct (extract_text page) as [e1|tx]; simpl.
  - now intros [= ->].
  - destruct (extract_tables page) as [e2|r]; [|discriminate].
    intros [= ->]. simpl. now rewrite <- app_assoc.
Qed.

(** X4. The first page whose extraction raises ends the request: the pages
    before it were extracted, of the faulty page the text is asked for and,
    if that returned, the tables, no later page is touched, the document is
    closed, and the error written is the message of that exception (of the
    one raised by closing, if closing fails too), with exit code 1. *)
Theorem first_fault_ends_the_request (env : Env)
    (prog pdf_path page_numbers_str : pystr) (extra : list pystr)
    (before after : list Z) (n : Z) (pdf : PDF) (ps : list Page)
    (page : Page) (e : exn) :
  map (entry_value env) (split comma page_numbers_str)
  = map Some (before ++ n :: after) ->
  pdfplumber_open env pdf_path = inr pdf ->
  pages pdf = inr ps ->
  forallb (served ps) before = true ->
  0 <= n ->
  nth_error ps (Z.to_nat n) = Some page ->
  first_fault page = Some e ->
  ExtractPages.run env prog (pdf_path :: page_numbers_str :: extra)
  = {| exit_code := 1;
       events :=
         [Open pdf_path; ReadPages pdf_path]
           ++ flat_map (extractions ps) before
           ++ page_calls page n
           ++ [Close pdf_path;
               Emit stderr
                 (Dumps true
                    (JDict
                       [(lit "error",
                         JStr (exn_str (match close pdf with
                                        | Some e' => e'
                                        | None => e
                                        end)))]))] |}.
Proof.
  intros Hparse Hopen Hpages Hbefore Hn Hnth Hfault.
  rewrite (run_parsed env _ _ _ _ _ Hparse).
  assert (Hrange : 0 <= n < len ps).
  { split; [exact Hn|]. unfold len.
    assert (Z.to_nat n < List.length ps)%nat
      by (apply nth_error_Some; congruence).
    lia. }
  destruct (getitem_in_range ps n Hrange) as (page' & Hnth' & Hget).
  rewrite Hnth in Hnth'. inversion Hnth'; subst page'.
  unfold session, with_open, call, bind, log, ret.
  rewrite Hopen. simpl. rewrite Hpages. simpl.
  rewrite (for_requested_prefix ps before (n :: after) _ _ Hbefore).
  cbn [ExtractPages.for_requested].
  apply in_range_spec in Hrange. unfold out_of_range in Hrange.
  rewrite Hrange. unfold bind at 1. rewrite Hget. unfold ret at 1.
  unfold bind at 1. rewrite (extract_page_first_fault page n e _ Hfault).
  destruct (close pdf); simpl; now rewrite <- !app_assoc.
Qed.

Lemma first_fault_ends_the_request_witness :
  ExtractPages.run Sample.env Sample.prog
    [lit "statement.pdf"; lit "1,7,2,0"]
  = {| exit_code := 1;
       events :=
         [Open (lit "statement.pdf"); ReadPages (lit "statement.pdf");
          ExtractText 1; ExtractTables 1; ExtractText 2;
          Close (lit "statement.pdf");
          Emit stderr
            (Dumps true
               (JDict [(lit "error", JStr (lit "No /Root object!"))]))] |}.
Proof.
  apply (first_fault_ends_the_request Sample.env Sample.prog
           (lit "statement.pdf") (lit "1,7,2,0") [] [1; 7] [0] 2
           Sample.statement [Sample.page0; Sample.page1; Sample.page2]
           Sample.page2 Sample.corrupt);
    try reflexivity.
  lia.
Defined.

(** X5. When every requested index is served but closing the document
    raises, the results are lost: the run exits with code 1, writes the
    message of that exception to the error stream and nothing to standard
    output. *)
Theorem close_fault_discards_the_results (env : Env)
    (prog pdf_path page_numbers_str : pystr) (extra : list pystr)
    (requested : list Z) (pdf : PDF) (ps : list Page) (e : exn) :
  map (entry_value env) (split comma page_numbers_str) = map Some requested ->
  pdfplumber_open env pdf_path = inr pdf ->
  pages pdf = inr ps ->
  forallb (served ps) requested = true ->
  close pdf = Some e ->
  let p := ExtractPages.run env prog (pdf_path :: page_numbers_str :: extra) in
  p = {| exit_code := 1;
         events :=
           [Open pdf_path; ReadPages pdf_path]
             ++ flat_map (extractions ps) requested
             ++ [Close pdf_path;
                 Emit stderr
                   (Dumps true (JDict [(lit "error", JStr (exn_str e))]))] |}
  /\ written stdout (events p) = [].
Proof.
  intros Hparse Hopen Hpages Hserved Hclose p. subst p.
  rewrite (run_parsed env _ _ _ _ _ Hparse).
  unfold session, with_open, call, bind, log, ret.
  rewrite Hopen. simpl. rewrite Hpages, Hclose. simpl.
  rewrite (for_requested_served ps _ [] _ Hserved). simpl.
  rewrite <- !app_assoc. simpl. split; [reflexivity|].
  rewrite written_app. rewrite written_io by apply extractions_io.
  reflexivity.
Qed.

Lemma close_fault_discards_the_results_witness :
  let p := ExtractPages.run Locked.env Sample.prog
             [lit "locked.pdf"; lit "0,3"] in
  p = {| exit_code := 1;
         events :=
           [Open (lit "locked.pdf"); ReadPages (lit "locked.pdf");
            ExtractText 0; ExtractTables 0; Close (lit "locked.pdf");
            Emit stderr
              (Dumps true
                 (JDict
                    [(lit "error", JStr (lit "Device or resource busy"))]))] |}
  /\ written stdout (events p) = [].
Proof.
  apply (close_fault_discards_the_results Locked.env Sample.prog
           (lit "locked.pdf") (lit "0,3") [] [0; 3] Locked.locked
           [Sample.page0] Locked.busy);
    reflexivity.
Defined.

(* ===================================================================== *)
(** ** The use of the document *)
(* ===================================================================== *)

Lemma getitem_pure {A} (l : list A) (i : Z) (t : trace) :
  (exists a, getitem l i t = (Return a, t))
  \/ (exists e, getitem l i t = (Raise e, t)).
Proof.
  unfold getitem, raise, ret.
  destruct ((_ <? 0) || (_ <=? _)); [right; now eexists|].
  destruct (nth_error l _); [left | right]; now eexists.
Qed.

(** Whatever its outcome, the loop only extracts. *)
Lemma for_requested_extracts (ps : list Page) (total : Z) (req : list Z)
    (acc : list ExtractPages.PageResult) (t : trace) :
  exists r evs,
    ExtractPages.for_requested ps total req acc t = (r, t ++ evs)
    /\ forallb is_extraction evs = true.
Proof.
  revert acc t. induction req as [|n req IH]; intros acc t; simpl.
  - exists (Return acc), []. now rewrite app_nil_r.
  - destruct ((n <? 0) || (n >=? total)); [apply IH|].
    unfold bind at 1.
    destruct (getitem_pure ps n t) as [(page & ->)|(e & ->)].
    2:{ exists (Raise e), []. now rewrite app_nil_r. }
    unfold bind at 1.
    unfold ExtractPages.extract_page, call, bind, log, ret, raise.
    destruct (extract_text page) as [e|tx]; simpl.
    { now exists (Raise e), [ExtractText n]. }
    destruct (extract_tables page) as [e|r]; simpl.
    { exists (Raise e), [ExtractText n; ExtractTables n].
      now rewrite <- app_assoc. }
    match goal with
    | |- context [ExtractPages.for_requested ps total req ?a ?u] =>
        destruct (IH a u) as (r' & evs & Hrun & Hev)
    end.
    exists r', ([ExtractText n; ExtractTables n] ++ evs).
    rewrite Hrun, <- !app_assoc. now split.
Qed.

Lemma eqb_path_refl (p : pystr) : eqb_path p p = true.
Proof.
  unfold eqb_path. now destruct (list_eq_dec N.eq_dec p p).
Qed.

Lemma doc_run_extractions (env : Env) (p : pystr) (evs rest : trace) :
  forallb is_extraction evs = true ->
  doc_run env (Opened p) (evs ++ rest) = doc_run env (Opened p) rest.
Proof.
  induction evs as [|ev evs IH]; simpl; [reflexivity|].
  destruct ev; simpl; try discriminate; exact IH.
Qed.

Lemma doc_run_session (env : Env) (p : pystr) (pdf : PDF) (evs : trace)
    (f : stream) (l : line) :
  pdfplumber_open env p = inr pdf ->
  forallb is_extraction evs = true ->
  doc_run env Fresh
    (([Open p; ReadPages p] ++ evs ++ [Close p]) ++ [Emit f l])
  = Some Printed.
Proof.
  intros Hopen Hevs. simpl. rewrite Hopen. simpl. rewrite eqb_path_refl.
  rewrite <- app_assoc, (doc_run_extractions env p evs _ Hevs).
  simpl. now rewrite eqb_path_refl.
Qed.

(** After its session the page extraction tool prints one line. *)
Lemma after_session_prints (env : Env)
    (r : outcome (list ExtractPages.PageResult)) (t : trace) :
  (forall c, r <> SystemExit c) ->
  exists f l, events (after_session env (r, t)) = t ++ [Emit f l].
Proof.
  intros Hr. destruct r as [results|e|c]; simpl.
  - destruct (stdout_accepts env _); simpl; now do 2 eexists.
  - now do 2 eexists.
  - now elim (Hr c).
Qed.

Lemma extractions_extract (ps : list Page) (req : list Z) :
  forallb is_extraction (flat_map (extractions ps) req) = true.
Proof.
  induction req as [|n req IH]; simpl; [reflexivity|].
  rewrite forallb_app, IH, andb_true_r.
  unfold extractions. now destruct (out_of_range n (len ps)).
Qed.

(** X6. Every run of the page extraction tool keeps the discipline of the
    document: it opens a document at most once, lists and extracts pages
    only while the document is open, closes the document it opened however
    the request ends, and prints exactly one line, as its last event, when
    no document is open.  A run that opens a document had at least two
    operands and a page-numbers argument whose entries all parsed. *)
Theorem extract_pages_releases_the_document (env : Env) (prog : pystr)
    (operands : list pystr) :
  let t := events (ExtractPages.run env prog operands) in
  disciplined env t
  /\ (existsb is_open t = true ->
      exists pdf_path page_numbers_str extra requested,
        operands = pdf_path :: page_numbers_str :: extra
        /\ map (entry_value env) (split comma page_numbers_str)
           = map Some requested).
Proof.
  intros t. subst t. unfold disciplined.
  destruct operands as [|pdf_path [|page_numbers_str extra]];
    try (rewrite run_too_few by (simpl; lia); split;
         [reflexivity | discriminate]).
  destruct (entries_cases env (split comma page_numbers_str))
    as [(requested & Hparse)|Hbad].
  2:{ rewrite (run_invalid env _ _ _ _ Hbad). split;
        [reflexivity | discriminate]. }
  split.
  2:{ intros _. now exists pdf_path, page_numbers_str, extra, requested. }
  rewrite (run_parsed env _ _ _ _ _ Hparse).
  destruct (session_ends env pdf_path requested) as (r & t & Hrun & Hend).
  rewrite Hrun.
  destruct (after_session_prints env r t) as (f & l & ->).
  { destruct Hend; discriminate. }
  destruct Hend as [e Ho|pdf e Ho Hp|pdf ps e evs Ho Hp Hs Hloop Hio
                    |pdf ps e Ho Hp Hs Hc|pdf ps Ho Hp Hs Hc].
  - simpl. now rewrite Ho.
  - apply (doc_run_session env pdf_path pdf []); [exact Ho | reflexivity].
  - apply (doc_run_session env pdf_path pdf evs); [exact Ho|].
    destruct (for_requested_extracts ps (len ps) requested []
                [Open pdf_path; ReadPages pdf_path])
      as (r' & evs' & Hrun' & Hev).
    rewrite Hloop in Hrun'. inversion Hrun' as [[Hr Ht]]. now subst evs'.
  - apply (doc_run_session env pdf_path pdf); [exact Ho|].
    apply extractions_extract.
  - apply (doc_run_session env pdf_path pdf); [exact Ho|].
    apply extractions_extract.
Qed.

Lemma extract_pages_releases_the_document_witness :
  exists pdf_path page_numbers_str extra requested,
    [lit "statement.pdf"; lit "2,0"; lit "more"]
    = pdf_path :: page_numbers_str :: extra
    /\ map (entry_value Sample.env) (split comma page_numbers_str)
       = map Some requested.
Proof.
  apply (extract_pages_releases_the_document Sample.env Sample.prog
           [lit "statement.pdf"; lit "2,0"; lit "more"]).
  reflexivity.
Defined.

(** Traces outside the discipline: a document opened twice, a line printed
    before the document is opened, a line printed while it is open, a page
    extracted from no document, a run that prints nothing. *)
Example discipline_rejects :
  doc_run Sample.env Fresh
    [Open (lit "statement.pdf"); Close (lit "statement.pdf");
     Open (lit "statement.pdf"); Close (lit "statement.pdf");
     Emit stdout (Text [])] = None
  /\ doc_run Sample.env Fresh
       [Emit stderr (Text []); Open (lit "statement.pdf");
        Close (lit "statement.pdf")] = None
  /\ doc_run Sample.env Fresh
       [Open (lit "statement.pdf"); Emit stdout (Text []);
        Close (lit "statement.pdf")] = None
  /\ doc_run Sample.env Fresh [ExtractText 0; Emit stdout (Text [])] = None
  /\ ~ disciplined Sample.env
         [Open (lit "statement.pdf"); Close (lit "statement.pdf")]
  /\ ~ disciplined Sample.env
         [Open (lit "statement.pdf"); Emit stderr (Text [])]
  /\ disciplined Sample.env
       [Open (lit "notes.txt"); Emit stderr (Text [])].
Proof. repeat split; discriminate. Qed.

(** However [get_metadata] ends, it made one of four sequences of
    accesses, and it neither printed nor left. *)
Lemma get_metadata_access (env : Env) (pdf_path : pystr) (t : trace) :
  exists r evs,
    GetMetadata.get_metadata env pdf_path t = (r, t ++ evs)
    /\ metadata_access env pdf_path evs
    /\ (forall c, r <> SystemExit c).
Proof.
  unfold GetMetadata.get_metadata, with_open, call, bind, log, ret, raise.
  destruct (os_path_getsize env pdf_path) as [e|size] eqn:Hsize; simpl.
  { exists (Raise e), [GetSize pdf_path]. repeat split.
    - now apply (size_only env pdf_path e).
    - discriminate. }
  destruct (pdfplumber_open env pdf_path) as [e|pdf] eqn:Hopen; simpl.
  { exists (Raise e), [GetSize pdf_path; Open pdf_path].
    rewrite <- app_assoc. repeat split.
    - now apply (not_opened env pdf_path e).
    - discriminate. }
  assert (Hnone : metadata_access env pdf_path
                    [GetSize pdf_path; Open pdf_path; ReadPages pdf_path;
                     Close pdf_path])
    by now apply (no_page_read env pdf_path pdf).
  assert (Hfirst : metadata_access env pdf_path
                     [GetSize pdf_path; Open pdf_path; ReadPages pdf_path;
                      ExtractText 0; Close pdf_path])
    by now apply (first_page_read env pdf_path pdf).
  destruct (pages pdf) as [e|ps] eqn:Hpages; simpl.
  { destruct (close pdf); do 2 eexists; rewrite <- !app_assoc; simpl;
      (split; [reflexivity|]); (split; [exact Hnone | discriminate]). }
  destruct ps as [|page ps].
  - simpl.
    destruct (close pdf); do 2 eexists; rewrite <- !app_assoc; simpl;
      (split; [reflexivity|]); (split; [exact Hnone | discriminate]).
  - rewrite len_positive, getitem_head. unfold ret.
    destruct (extract_text page); simpl; destruct (close pdf);
      do 2 eexists; rewrite <- !app_assoc; simpl;
      (split; [reflexivity|]); (split; [exact Hfirst | discriminate]).
Qed.

(** The events of a run of the metadata tool on a regular file. *)
Lemma run_a_file_events (env : Env) (prog pdf_path : pystr) :
  os_path_isfile env pdf_path = true ->
  exists evs f l,
    events (GetMetadata.run env prog [pdf_path])
    = ([IsFile pdf_path] ++ evs) ++ [Emit f l]
    /\ metadata_access env pdf_path evs.
Proof.
  intros Hfile. rewrite (run_a_file env prog pdf_path Hfile).
  destruct (get_metadata_access env pdf_path [IsFile pdf_path])
    as (r & evs & Hrun & Hacc & Hexit).
  rewrite Hrun. exists evs.
  destruct r as [m|e|c]; simpl.
  - destruct (stdout_accepts env _); simpl; now do 2 eexists.
  - now do 2 eexists.
  - now elim (Hexit c).
Qed.

(** X7. Every run of the metadata tool keeps the discipline of the
    document: it opens the file at most once, after testing the path and
    reading the size, reads pages only while the document is open, closes
    the document it opened however the extraction ends, and prints exactly
    one line, as its last event, when no document is open.  A run that
    opens a file had one operand, which [os.path.isfile] accepted. *)
Theorem get_metadata_releases_the_document (env : Env) (prog : pystr)
    (operands : list pystr) :
  let t := events (GetMetadata.run env prog operands) in
  disciplined env t
  /\ (existsb is_open t = true ->
      exists pdf_path,
        operands = [pdf_path] /\ os_path_isfile env pdf_path = true).
Proof.
  intros t. subst t. unfold disciplined.
  destruct operands as [|pdf_path [|b l]];
    try (rewrite run_wrong_count by (simpl; lia); split;
         [reflexivity | discriminate]).
  destruct (os_path_isfile env pdf_path) eqn:Hfile.
  2:{ rewrite (run_not_a_file env prog pdf_path Hfile). split;
        [reflexivity | discriminate]. }
  split; [|intros _; now exists pdf_path].
  destruct (run_a_file_events env prog pdf_path Hfile)
    as (evs & f & l & -> & Hacc).
  destruct Hacc as [e Hs|e Ho|pdf Ho|pdf Ho]; simpl;
    rewrite ?Ho; simpl; rewrite ?eqb_path_refl; simpl;
    rewrite ?eqb_path_refl; reflexivity.
Qed.

Lemma get_metadata_releases_the_document_witness :
  exists pdf_path,
    [lit "blank.pdf"] = [pdf_path]
    /\ os_path_isfile Sample.env pdf_path = true.
Proof.
  apply (get_metadata_releases_the_document Sample.env Sample.prog
           [lit "blank.pdf"]).
  reflexivity.
Defined.

(** X8. A run of the metadata tool asks the document for the text of its
    first page at most, once, and never for tables or for another page,
    however many pages the document has. *)
Theorem get_metadata_reads_the_first_page_only (env : Env) (prog : pystr)
    (operands : list pystr) :
  let t := events (GetMetadata.run env prog operands) in
  filter is_extraction t = [] \/ filter is_extraction t = [ExtractText 0].
Proof.
  intros t. subst t.
  destruct operands as [|pdf_path [|b l]];
    try (rewrite run_wrong_count by (simpl; lia); simpl; now auto).
  destruct (os_path_isfile env pdf_path) eqn:Hfile.
  2:{ rewrite (run_not_a_file env prog pdf_path Hfile). simpl. now auto. }
  destruct (run_a_file_events env prog pdf_path Hfile)
    as (evs & f & l & -> & Hacc).
  destruct Hacc; simpl; auto.
Qed.

(** X9. When the size of an accepted file cannot be read, the metadata
    tool fails before it opens the file as a PDF: the run tests the path,
    asks for the size, writes the message of the exception after
    "Error extracting metadata: " to the error stream and exits with
    code 1. *)
Theorem unreadable_size_is_reported (env : Env) (prog pdf_path : pystr)
    (e : exn) :
  os_path_isfile env pdf_path = true ->
  os_path_getsize env pdf_path = inl e ->
  GetMetadata.run env prog [pdf_path]
  = {| exit_code := 1;
       events :=
         [IsFile pdf_path; GetSize pdf_path;
          Emit stderr
            (Text (lit "Error extracting metadata: " ++ exn_str e))] |}.
Proof.
  intros Hfile Hsize. rewrite (run_a_file env prog pdf_path Hfile).
  unfold GetMetadata.get_metadata, call, bind, log, raise.
  now rewrite Hsize.
Qed.

Lemma unreadable_size_is_reported_witness :
  GetMetadata.run Locked.env Sample.prog [lit "gone.pdf"]
  = {| exit_code := 1;
       events :=
         [IsFile (lit "gone.pdf"); GetSize (lit "gone.pdf");
          Emit stderr
            (Text (lit "Error extracting metadata: Stale file handle"))] |}.
Proof.
  apply (unreadable_size_is_reported Locked.env Sample.prog (lit "gone.pdf")
           Locked.gone);
    reflexivity.
Defined.

(* ===================================================================== *)
(** ** The two tools on one file *)
(* ===================================================================== *)

(** X10. When both tools succeed on the same file, they agree on it: the
    results of the page extraction tool whose index is outside
    [0, pageCount), for the pageCount the metadata tool prints, are the
    placeholders naming that pageCount, and the text of every result for
    page 0 is the firstPageText the metadata tool prints. *)
Theorem tools_agree_on_a_file (env : Env)
    (prog prog' pdf_path page_numbers_str : pystr) (extra : list pystr) :
  exit_code (GetMetadata.run env prog [pdf_path]) = 0 ->
  exit_code
    (ExtractPages.run env prog' (pdf_path :: page_numbers_str :: extra)) = 0 ->
  exists m results,
    written stdout (events (GetMetadata.run env prog [pdf_path]))
    = [Dumps false
         (JDict [(lit "pageCount", JInt (GetMetadata.pageCount m));
                 (lit "fileSize", JInt (GetMetadata.fileSize m));
                 (lit "firstPageText", JStr (GetMetadata.firstPageText m))])]
    /\ written stdout
         (events
            (ExtractPages.run env prog'
               (pdf_path :: page_numbers_str :: extra)))
       = [Dumps false
            (JDict
               [(lit "pages",
                 JList
                   (map (fun r =>
                           JDict
                             [(lit "pageNum", JInt (ExtractPages.pageNum r));
                              (lit "text", JStr (ExtractPages.text r));
                              (lit "tables",
                               JList
                                 (map (fun table =>
                                         JList
                                           (map (fun row => JList (map JStr row))
                                                table))
                                      (ExtractPages.tables r)))])
                        results))])]
    /\ Forall (fun r =>
                 let n := ExtractPages.pageNum r in
                 if out_of_range n (GetMetadata.pageCount m)
                 then r = ExtractPages.placeholder n (GetMetadata.pageCount m)
                 else n = 0 ->
                      ExtractPages.text r = GetMetadata.firstPageText m)
              results.
Proof.
  intros Hmeta Hpages.
  destruct (os_path_isfile env pdf_path) eqn:Hfile.
  2:{ rewrite (run_not_a_file env prog pdf_path Hfile) in Hmeta.
      discriminate. }
  rewrite (run_a_file env prog pdf_path Hfile) in Hmeta |- *.
  destruct (get_metadata_ends env pdf_path [IsFile pdf_path])
    as (r & evs & Hrun & Hio & Hr).
  rewrite Hrun in Hmeta |- *.
  destruct r as [m|e|c]; [|simpl in Hmeta; discriminate|contradiction].
  unfold after_metadata in Hmeta |- *.
  destruct (stdout_accepts env (Dumps false _));
    simpl in Hmeta; try discriminate.
  destruct Hr as (ps & (pdf & _ & Hopen & Hps & _ & Hfirst) & Hcount & _).
  destruct (entries_cases env (split comma page_numbers_str))
    as [(requested & Hparse)|Hbad].
  2:{ rewrite (run_invalid env _ _ _ _ Hbad) in Hpages. discriminate. }
  rewrite (run_parsed env _ _ _ _ _ Hparse) in Hpages |- *.
  destruct (session_ends env pdf_path requested) as (r & t & Hrun' & Hend).
  rewrite Hrun' in Hpages |- *.
  destruct Hend as [| | | |pdf' ps' Ho Hp Hs Hc];
    try (simpl in Hpages; discriminate).
  unfold after_session in Hpages |- *.
  destruct (stdout_accepts env (ExtractPages.success_payload _));
    simpl in Hpages; try discriminate.
  rewrite Hopen in Ho. inversion Ho; subst pdf'.
  rewrite Hps in Hp. inversion Hp; subst ps'.
  exists m, (map (result_of ps) requested). split; [|split].
  - cbn [events]. rewrite !written_app, (written_io stdout evs Hio).
    reflexivity.
  - cbn [events]. rewrite !written_app.
    rewrite (written_io stdout (flat_map _ _)) by apply extractions_io.
    reflexivity.
  - apply Forall_map, Forall_forall. intros n _. rewrite Hcount.
    unfold result_of.
    destruct (out_of_range n (len ps)) eqn:Hrange; simpl;
      [now rewrite Hrange|].
    destruct (nth_error ps (Z.to_nat n)) as [page|] eqn:Hnth; simpl;
      rewrite Hrange.
    + intros ->. destruct ps as [|page' ps]; [discriminate|].
      simpl in Hnth. inversion Hnth; subst page'.
      simpl in Hfirst. destruct Hfirst as (tx & Htx & ->).
      unfold text_of. now rewrite Htx.
    + apply in_range_spec in Hrange. apply nth_error_None in Hnth.
      unfold len in Hrange. lia.
Qed.

Lemma tools_agree_on_a_file_witness :
  exists m results,
    written stdout
      (events (GetMetadata.run Sample.env Sample.prog [lit "statement.pdf"]))
    = [Dumps false
         (JDict [(lit "pageCount", JInt (GetMetadata.pageCount m));
                 (lit "fileSize", JInt (GetMetadata.fileSize m));
                 (lit "firstPageText", JStr (GetMetadata.firstPageText m))])]
    /\ written stdout
         (events
            (ExtractPages.run Sample.env Sample.prog
               [lit "statement.pdf"; lit "0,3,1,0"]))
       = [Dumps false
            (JDict
               [(lit "pages",
                 JList
                   (map (fun r =>
                           JDict
                             [(lit "pageNum", JInt (ExtractPages.pageNum r));
                              (lit "text", JStr (ExtractPages.text r));
                              (lit "tables",
                               JList
                                 (map (fun table =>
                                         JList
                                           (map (fun row => JList (map JStr row))
                                                table))
                                      (ExtractPages.tables r)))])
                        results))])]
    /\ Forall (fun r =>
                 let n := ExtractPages.pageNum r in
                 if out_of_range n (GetMetadata.pageCount m)
                 then r = ExtractPages.placeholder n (GetMetadata.pageCount m)
                 else n = 0 ->
                      ExtractPages.text r = GetMetadata.firstPageText m)
              results.
Proof.
  apply (tools_agree_on_a_file Sample.env Sample.prog Sample.prog
           (lit "statement.pdf") (lit "0,3,1,0") []);
    reflexivity.
Defined.

(* ===================================================================== *)
(** ** The out-of-range notice *)
(* ===================================================================== *)

Lemma lit_inj (a b : string) : lit a = lit b -> a = b.
Proof.
  revert b. induction a as [|x a IH]; intros [|y b] H; simpl in H;
    try discriminate; [reflexivity|].
  inversion H as [[Hx Hrest]]. f_equal; [|now apply IH].
  rewrite <- (ascii_N_embedding x), <- (ascii_N_embedding y). now rewrite Hx.
Qed.

Lemma to_int_not_nil (n : Z) :
  Z.to_int n <> Decimal.Pos Decimal.Nil
  /\ Z.to_int n <> Decimal.Neg Decimal.Nil.
Proof.
  destruct n as [|p|p]; simpl; split; try discriminate;
    intros [= H]; now apply (Unsigned.to_uint_nonnil p).
Qed.

Lemma str_of_int_inj (n n' : Z) : str_of_int n = str_of_int n' -> n = n'.
Proof.
  unfold str_of_int. intros H. apply lit_inj in H.
  apply (f_equal NilZero.int_of_string) in H.
  destruct (to_int_not_nil n) as [Hp Hn].
  destruct (to_int_not_nil n') as [Hp' Hn'].
  rewrite !NilZero.isi in H by assumption.
  inversion H as [H']. now apply DecimalZ.to_int_inj.
Qed.

Lemma string_of_uint_no_space (d : Decimal.uint) :
  Forall (fun c => c <> space) (lit (NilEmpty.string_of_uint d)).
Proof.
  induction d; simpl; constructor; auto; discriminate.
Qed.

Lemma str_of_int_no_space (n : Z) :
  Forall (fun c => c <> space) (str_of_int n).
Proof.
  unfold str_of_int, NilZero.string_of_int, NilZero.string_of_uint.
  destruct (Z.to_int n) as [d|d].
  - destruct d; try apply (string_of_uint_no_space (_ d)).
    simpl. constructor; [discriminate | constructor].
  - simpl. constructor; [discriminate|].
    destruct d; try apply (string_of_uint_no_space (_ d)).
    simpl. constructor; [discriminate | constructor].
Qed.

(** Two strings cut at their first space agree piece by piece. *)
Lemma cut_at_space (a b x y : pystr) :
  Forall (fun c => c <> space) a ->
  Forall (fun c => c <> space) b ->
  a ++ space :: x = b ++ space :: y ->
  a = b /\ x = y.
Proof.
  intros Ha. revert b. induction Ha as [|c a Hc _ IH]; intros b Hb H.
  - destruct Hb as [|d b Hd _]; simpl in H.
    + now inversion H.
    + inversion H; subst. now elim Hd.
  - destruct Hb as [|d b Hd Hb]; simpl in H.
    + inversion H; subst. now elim Hc.
    + inversion H as [[Hcd Hrest]]. subst d.
      destruct (IH b Hb Hrest) as [-> ->]. now split.
Qed.

(** X11. The out-of-range notice tells which index was asked for and how
    many pages the document has: two notices with the same text are for
    the same index and the same page count. *)
Theorem out_of_range_text_is_unambiguous (n total n' total' : Z) :
  ExtractPages.out_of_range_text n total
  = ExtractPages.out_of_range_text n' total' ->
  n = n' /\ total = total'.
Proof.
  unfold ExtractPages.out_of_range_text. intros H.
  apply app_inv_head in H.
  change (lit " out of range " ++ [em_dash] ++ lit " PDF has "
            ++ str_of_int total ++ lit " pages]")
    with (space :: lit "out of range " ++ [em_dash] ++ lit " PDF has "
            ++ str_of_int total ++ lit " pages]") in H.
  change (lit " out of range " ++ [em_dash] ++ lit " PDF has "
            ++ str_of_int total' ++ lit " pages]")
    with (space :: lit "out of range " ++ [em_dash] ++ lit " PDF has "
            ++ str_of_int total' ++ lit " pages]") in H.
  apply cut_at_space in H; try apply str_of_int_no_space.
  destruct H as [Hn H]. split; [now apply str_of_int_inj|].
  apply app_inv_head in H. apply (app_inv_head [em_dash]) in H.
  apply app_inv_head in H. apply app_inv_tail in H.
  now apply str_of_int_inj.
Qed.

Lemma out_of_range_text_is_unambiguous_witness : -5 = -5 /\ 3 = 3.
Proof.
  apply (out_of_range_text_is_unambiguous (-5) 3 (-5) 3). reflexivity.
Defined.

(* ===================================================================== *)
(** ** When the tools succeed *)
(* ===================================================================== *)

(** X12. The page extraction tool exits with code 0 exactly when it is
    given at least two operands, every entry of the second is an integer,
    the file opens and lists its pages, every requested page inside the
    document extracts without raising, the document closes, and standard
    output can encode the text of the result. *)
Theorem extract_pages_succeeds_iff (env : Env) (prog : pystr)
    (operands : list pystr) :
  exit_code (ExtractPages.run env prog operands) = 0
  <-> exists pdf_path page_numbers_str extra requested pdf ps,
        operands = pdf_path :: page_numbers_str :: extra
        /\ map (entry_value env) (split comma page_numbers_str)
           = map Some requested
        /\ pdfplumber_open env pdf_path = inr pdf
        /\ pages pdf = inr ps
        /\ forallb (served ps) requested = true
        /\ close pdf = None
        /\ stdout_accepts env
             (Dumps false
                (JDict
                   [(lit "pages",
                     JList
                       (map (fun r =>
                               JDict
                                 [(lit "pageNum",
                                   JInt (ExtractPages.pageNum r));
                                  (lit "text", JStr (ExtractPages.text r));
                                  (lit "tables",
                                   JList
                                     (map (fun table =>
                                             JList
                                               (map (fun row =>
                                                       JList (map JStr row))
                                                    table))
                                          (ExtractPages.tables r)))])
                            (map (result_of ps) requested)))]))
           = true.
Proof.
  split.
  - intros Hexit.
    destruct operands as [|pdf_path [|page_numbers_str extra]];
      try (rewrite run_too_few in Hexit by (simpl; lia); discriminate).
    destruct (entries_cases env (split comma page_numbers_str))
      as [(requested & Hparse)|Hbad].
    2:{ rewrite (run_invalid env _ _ _ _ Hbad) in Hexit. discriminate. }
    rewrite (run_parsed env _ _ _ _ _ Hparse) in Hexit.
    destruct (session_ends env pdf_path requested) as (r & t & Hrun & Hend).
    rewrite Hrun in Hexit.
    destruct Hend as [| | | |pdf ps Ho Hp Hs Hc];
      try (simpl in Hexit; discriminate).
    unfold after_session in Hexit.
    destruct (stdout_accepts env (ExtractPages.success_payload _)) eqn:Hacc;
      simpl in Hexit; try discriminate.
    exists pdf_path, page_numbers_str, extra, requested, pdf, ps.
    repeat split; assumption.
  - intros (pdf_path & page_numbers_str & extra & requested & pdf & ps
            & -> & Hparse & Ho & Hp & Hs & Hc & Hacc).
    rewrite (run_parsed env _ _ _ _ _ Hparse).
    rewrite (session_served env _ _ pdf ps [] Ho Hp Hc Hs).
    unfold after_session.
    change (stdout_accepts env
              (ExtractPages.success_payload (map (result_of ps) requested))
            = true) in Hacc.
    now rewrite Hacc.
Qed.

(** X13. The metadata tool exits with code 0 exactly when it is given one
    operand, a regular file whose size can be read and which opens, lists
    its pages, yields the text of its first page if it has one, and
    closes, and standard output can encode the text of the report. *)
Theorem get_metadata_succeeds_iff (env : Env) (prog : pystr)
    (operands : list pystr) :
  exit_code (GetMetadata.run env prog operands) = 0
  <-> exists pdf_path size ps txt,
        operands = [pdf_path]
        /\ os_path_isfile env pdf_path = true
        /\ readable env pdf_path size ps txt
        /\ stdout_accepts env
             (Dumps false
                (JDict [(lit "pageCount", JInt (len ps));
                        (lit "fileSize", JInt size);
                        (lit "firstPageText", JStr txt)]))
           = true.
Proof.
  split.
  - intros Hexit.
    destruct operands as [|pdf_path [|b l]];
      try (rewrite run_wrong_count in Hexit by (simpl; lia); discriminate).
    destruct (os_path_isfile env pdf_path) eqn:Hfile.
    2:{ rewrite (run_not_a_file env prog pdf_path Hfile) in Hexit.
        discriminate. }
    rewrite (run_a_file env prog pdf_path Hfile) in Hexit.
    destruct (get_metadata_ends env pdf_path [IsFile pdf_path])
      as (r & evs & Hrun & _ & Hr).
    rewrite Hrun in Hexit.
    destruct r as [m|e|c]; [|simpl in Hexit; discriminate|contradiction].
    unfold after_metadata in Hexit.
    destruct (stdout_accepts env (Dumps false _)) eqn:Hacc;
      simpl in Hexit; try discriminate.
    destruct Hr as (ps & Hread & Hcount & _).
    exists pdf_path, (GetMetadata.fileSize m), ps,
           (GetMetadata.firstPageText m).
    repeat split; try assumption.
    rewrite <- Hcount. exact Hacc.
  - intros (pdf_path & size & ps & txt & -> & Hfile & Hread & Hacc).
    rewrite (run_a_file env prog pdf_path Hfile).
    rewrite (get_metadata_readable env _ _ _ _ _ Hread).
    unfold after_metadata.
    change (stdout_accepts env
              (Dumps false
                 (GetMetadata.json_of_metadata
                    {| GetMetadata.pageCount := len ps;
                       GetMetadata.fileSize := size;
                       GetMetadata.firstPageText := txt |}))
            = true) in Hacc.
    now rewrite Hacc.
Qed.
